(** * Attar shop backend: order workflow, pricing, status machine, reviews

    A shallow embedding of the route handlers of the Express/Mongoose
    backend (routes/orders.js, routes/cart.js, routes/reviews.js,
    routes/payments.js, models/Review.js) together with the properties
    the specification states about them, followed by the further
    handlers around them (reading an order, the inventory overview,
    writing reviews, payment intents, the product slug, wishlist and
    address book) and the invariants the handlers keep together.

    Conventions of the embedding.
    - A Mongo collection is a finite map from document ids to documents.
    - A route handler is a function from the database (and the request)
      to a response and the database it leaves behind.
    - JavaScript numbers that hold money or rating averages are exact
      rationals ([Q]); stock counts and quantities are integers ([Z]).
      [Math.round x] is [floor (x + 1/2)].
    - [new Date()] / [Date.now] is the [now] argument of a handler.
    - Failures of the store itself (connectivity, index violations) are
      not modelled: every read and write succeeds. *)

From Stdlib Require Import ZArith QArith Qround Lqa Ascii Lia.
From stdpp Require Import gmap strings list fin_maps.

Local Open Scope string_scope.
Local Open Scope Z_scope.

#[local] Set Warnings "-clear-no-such-hyp".

Abbreviation ObjectId := N (only parsing).
Abbreviation Timestamp := Z (only parsing).

(** ** Numbers *)

(** [Math.round]: nearest integer, halves towards plus infinity. *)
Definition Math_round (x : Q) : Z := Qfloor (x + (1 # 2))%Q.

(** [Math.round(x * 100) / 100]. *)
Definition round2 (x : Q) : Q := (inject_Z (Math_round (x * 100)) / 100)%Q.

(** [Math.round(x * 10) / 10]. *)
Definition round1 (x : Q) : Q := (inject_Z (Math_round (x * 10)) / 10)%Q.

(** JavaScript truthiness of a possibly missing string. *)
Definition truthy (s : option string) : bool :=
  match s with
  | Some s => negb (String.eqb s "")
  | None => false
  end.

(** [s || d] for a possibly missing string. *)
Definition or_default (s : option string) (d : string) : string :=
  match s with
  | Some s => if String.eqb s "" then d else s
  | None => d
  end.

(** [Array.prototype.includes] on an array of strings. *)
Definition includes (l : list string) (s : string) : bool :=
  existsb (String.eqb s) l.

(** ** models/Product.js *)

Module Product.

Record Size := mkSize {
  volume : string;
  price : Q;
  stock : Z;
  sku : option string
}.

Record Ratings := mkRatings {
  average : Q;
  count : Z
}.

(** The fields the order, cart and review code reads or writes; an
    image is represented by its [url] (empty when absent). *)
Record t := mk {
  name : string;
  sizes : list Size;
  images : list string;
  ratings : Ratings;
  isActive : bool
}.

Definition set_stock (s : Size) (n : Z) : Size :=
  {| volume := volume s; price := price s; stock := n; sku := sku s |}.

Definition set_sizes (p : t) (ss : list Size) : t :=
  {| name := name p; sizes := ss; images := images p;
     ratings := ratings p; isActive := isActive p |}.

Definition set_ratings (p : t) (r : Ratings) : t :=
  {| name := name p; sizes := sizes p; images := images p;
     ratings := r; isActive := isActive p |}.

(** [product.sizes.find(s => s.volume === v)]. *)
Definition findSize (p : t) (v : string) : option Size :=
  List.find (fun s => String.eqb (volume s) v) (sizes p).

(** The positional update [{ $inc: { 'sizes.$.stock': d } }]: the first
    array element whose volume matched the query is incremented. *)
Fixpoint incFirst (v : string) (d : Z) (ss : list Size) : list Size :=
  match ss with
  | [] => []
  | s :: rest =>
      if String.eqb (volume s) v
      then set_stock s (stock s + d) :: rest
      else s :: incFirst v d rest
  end.

(** [Product.updateOne({ _id: id, 'sizes.volume': v },
                       { $inc: { 'sizes.$.stock': d } })]:
    nothing happens when no document matches the filter. *)
Definition updateOne_incStock (id : ObjectId) (v : string) (d : Z)
    (ps : gmap N t) : gmap N t :=
  match ps !! id with
  | Some p =>
      if existsb (fun s => String.eqb (volume s) v) (sizes p)
      then <[id := set_sizes p (incFirst v d (sizes p))]> ps
      else ps
  | None => ps
  end.

(** The stock counter a query for product [id] and size label [v]
    reaches, if any. *)
Definition stockOf (ps : gmap N t) (id : ObjectId) (v : string) : option Z :=
  match ps !! id with
  | Some p => stock <$> findSize p v
  | None => None
  end.

End Product.

(** ** models/Order.js *)

Module Order.

Record Item := mkItem {
  product : ObjectId;
  name : string;
  image : string;
  size : string;
  price : Q;
  quantity : Z
}.

(** A missing request field is the empty string: both fail
    [notEmpty()] and Mongoose's [required]. *)
Record Address := mkAddress {
  fullName : string;
  street : string;
  city : string;
  state : string;
  country : string;
  zipCode : string;
  phone : string
}.

Record Pricing := mkPricing {
  subtotal : Q;
  shipping : Q;
  tax : Q;
  discount : Q;
  total : Q
}.

Record Coupon := mkCoupon {
  code : string;
  coupon_discount : Q
}.

Record Payment := mkPayment {
  method : string;
  payment_status : string;
  stripePaymentId : option string;
  stripeClientSecret : option string;
  paidAt : option Timestamp
}.

Record HistoryEntry := mkEntry {
  entry_status : string;
  message : string;
  timestamp : Timestamp
}.

Record Tracking := mkTracking {
  carrier : string;
  trackingNumber : string;
  url : string
}.

(** [orderNumber] keeps the two numbers the template
    [`ZA-${Date.now()}-${String(count + 1).padStart(4, '0')}`]
    interpolates. *)
Record t := mk {
  orderNumber : option (Timestamp * nat);
  user : ObjectId;
  items : list Item;
  shippingAddress : Address;
  pricing : Pricing;
  coupon : option Coupon;
  payment : Payment;
  status : string;
  statusHistory : list HistoryEntry;
  tracking : option Tracking;
  notes : option string;
  isGift : bool;
  giftMessage : option string
}.

Definition set_paidAt (p : Payment) (d : option Timestamp) : Payment :=
  {| method := method p; payment_status := payment_status p;
     stripePaymentId := stripePaymentId p;
     stripeClientSecret := stripeClientSecret p; paidAt := d |}.

Definition set_payment_status (p : Payment) (s : string) : Payment :=
  {| method := method p; payment_status := s;
     stripePaymentId := stripePaymentId p;
     stripeClientSecret := stripeClientSecret p; paidAt := paidAt p |}.

Definition set_status (o : t) (s : string) : t :=
  {| orderNumber := orderNumber o; user := user o; items := items o;
     shippingAddress := shippingAddress o; pricing := pricing o;
     coupon := coupon o; payment := payment o; status := s;
     statusHistory := statusHistory o; tracking := tracking o;
     notes := notes o; isGift := isGift o; giftMessage := giftMessage o |}.

(** [order.statusHistory.push(e)]. *)
Definition push_history (o : t) (e : HistoryEntry) : t :=
  {| orderNumber := orderNumber o; user := user o; items := items o;
     shippingAddress := shippingAddress o; pricing := pricing o;
     coupon := coupon o; payment := payment o; status := status o;
     statusHistory := statusHistory o ++ [e]; tracking := tracking o;
     notes := notes o; isGift := isGift o; giftMessage := giftMessage o |}.

Definition set_tracking (o : t) (tr : option Tracking) : t :=
  {| orderNumber := orderNumber o; user := user o; items := items o;
     shippingAddress := shippingAddress o; pricing := pricing o;
     coupon := coupon o; payment := payment o; status := status o;
     statusHistory := statusHistory o; tracking := tr;
     notes := notes o; isGift := isGift o; giftMessage := giftMessage o |}.

Definition set_payment (o : t) (p : Payment) : t :=
  {| orderNumber := orderNumber o; user := user o; items := items o;
     shippingAddress := shippingAddress o; pricing := pricing o;
     coupon := coupon o; payment := p; status := status o;
     statusHistory := statusHistory o; tracking := tracking o;
     notes := notes o; isGift := isGift o; giftMessage := giftMessage o |}.

Definition set_orderNumber (o : t) (n : option (Timestamp * nat)) : t :=
  {| orderNumber := n; user := user o; items := items o;
     shippingAddress := shippingAddress o; pricing := pricing o;
     coupon := coupon o; payment := payment o; status := status o;
     statusHistory := statusHistory o; tracking := tracking o;
     notes := notes o; isGift := isGift o; giftMessage := giftMessage o |}.

Definition nonEmpty (s : string) : bool := negb (String.eqb s "").

(** Schema validation run by [Order.create]: the [required] address
    fields, [quantity: { min: 1 }] on every item and the [enum] of
    [payment.method]. *)
Definition validAddress (a : Address) : bool :=
  nonEmpty (fullName a) && nonEmpty (street a) && nonEmpty (city a)
  && nonEmpty (state a) && nonEmpty (country a) && nonEmpty (zipCode a)
  && nonEmpty (phone a).

Definition validate (o : t) : bool :=
  forallb (fun it => (1 <=? quantity it)%Z) (items o)
  && validAddress (shippingAddress o)
  && includes ["stripe"; "cod"; "bank_transfer"] (method (payment o)).

(** The [pre('save')] hook: a missing order number is generated from
    the clock and the number of orders in the collection. *)
Definition preSave (now : Timestamp) (os : gmap N t) (o : t) : t :=
  match orderNumber o with
  | Some _ => o
  | None => set_orderNumber o (Some (now, S (base.size os)))
  end.

End Order.

(** ** models/Review.js *)

Module Review.

Record t := mk {
  user : ObjectId;
  product : ObjectId;
  rating : Q;
  title : string;
  comment : string;
  isVerifiedPurchase : bool;
  isApproved : bool;
  helpfulVotes : Z;
  votedBy : list ObjectId
}.

Definition set_votes (r : t) (n : Z) (vs : list ObjectId) : t :=
  {| user := user r; product := product r; rating := rating r;
     title := title r; comment := comment r;
     isVerifiedPurchase := isVerifiedPurchase r;
     isApproved := isApproved r; helpfulVotes := n; votedBy := vs |}.

(** [{ $match: { product: productId, isApproved: true } }]. *)
Definition matches (productId : ObjectId) (r : t) : bool :=
  N.eqb (product r) productId && isApproved r.

Definition matching (rs : gmap N t) (productId : ObjectId) : list t :=
  List.filter (matches productId) (snd <$> map_to_list rs).

Definition sumRatings (l : list t) : Q :=
  fold_left (fun acc r => (acc + rating r)%Q) l 0%Q.

(** The aggregation pipeline of [updateProductRating]: no group when
    nothing matches, otherwise one group with [$avg] and [$sum: 1]. *)
Definition aggregate (rs : gmap N t) (productId : ObjectId) : option (Q * Z) :=
  match matching rs productId with
  | [] => None
  | l => Some ((sumRatings l / inject_Z (Z.of_nat (length l)))%Q,
               Z.of_nat (length l))
  end.

(** [reviewSchema.statics.updateProductRating]; [findByIdAndUpdate]
    leaves the collection alone when the product does not exist. *)
Definition updateProductRating (rs : gmap N t) (productId : ObjectId)
    (ps : gmap N Product.t) : gmap N Product.t :=
  let stats := aggregate rs productId in
  let r :=
    {| Product.average :=
         match stats with Some (avgRating, _) => round1 avgRating | None => 0%Q end;
       Product.count :=
         match stats with Some (_, count) => count | None => 0 end |} in
  match ps !! productId with
  | Some p => <[productId := Product.set_ratings p r]> ps
  | None => ps
  end.

End Review.

(** ** The database and the responses of the handlers *)

Record Db := mkDb {
  products : gmap N Product.t;
  orders : gmap N Order.t;
  reviews : gmap N Review.t
}.

Definition set_products (db : Db) (ps : gmap N Product.t) : Db :=
  {| products := ps; orders := orders db; reviews := reviews db |}.

Definition set_orders (db : Db) (os : gmap N Order.t) : Db :=
  {| products := products db; orders := os; reviews := reviews db |}.

Definition set_reviews (db : Db) (rs : gmap N Review.t) : Db :=
  {| products := products db; orders := orders db; reviews := rs |}.

(** The authenticated user [protect] attaches to the request. *)
Record AuthUser := mkUser {
  uid : ObjectId;
  role : string
}.

(** One constructor per failure response of the modelled handlers; the
    comment gives the message the handler sends. *)
Inductive Error :=
| ValidationErrors                      (* express-validator: errors.array() *)
| ProductNotFound (id : ObjectId)       (* `Product ${id} not found` *)
| SizeNotAvailable (size : string)      (* `Size ${size} not available` *)
| InsufficientStock (product : string)  (* `Insufficient stock for ${name}` *)
| OrderRejected                         (* Order.create threw: error.message *)
| OrderNotFound                         (* 'Order not found' *)
| NotAuthorized                         (* 'Not authorized' *)
| CannotCancel (status : string)        (* `Order cannot be cancelled (status: ${status})` *)
| AdminsOnly                            (* 'Access denied. Admins only.' *)
| InvalidStatus                         (* 'Invalid status' *)
| InvalidCoupon                         (* 'Invalid coupon code' *)
| ReviewNotFound                        (* 'Review not found' *)
| NotCod.                               (* 'Not a COD order' *)

Definition httpStatus (e : Error) : nat :=
  match e with
  | OrderNotFound | ReviewNotFound => 404
  | NotAuthorized | AdminsOnly => 403
  | _ => 400
  end%nat.

Inductive Response (A : Type) :=
| Ok (body : A)
| Err (e : Error).
Arguments Ok {A} body.
Arguments Err {A} e.

(** ** routes/orders.js *)

Module Orders.

Record ItemReq := mkItemReq {
  product : ObjectId;
  size : string;
  quantity : Z
}.

(** The body of [POST /api/orders]. *)
Record PlaceReq := mkPlaceReq {
  items : list ItemReq;
  shippingAddress : Order.Address;
  payment_method : option string;
  notes : option string;
  isGift : option bool;
  giftMessage : option string;
  coupon_code : option string
}.

(** The express-validator chain in front of the handler. *)
Definition validationResult (req : PlaceReq) : bool :=
  (1 <=? length (items req))%nat
  && Order.nonEmpty (Order.fullName (shippingAddress req))
  && Order.nonEmpty (Order.street (shippingAddress req))
  && Order.nonEmpty (Order.city (shippingAddress req))
  && Order.nonEmpty (Order.country (shippingAddress req)).

(** [product.images[0]?.url || '']. *)
Definition firstImage (p : Product.t) : string :=
  match Product.images p with
  | u :: _ => u
  | [] => ""
  end.

(** The loop "verify products and calculate pricing": [subtotal] and
    [orderItems] are the two variables it updates; the first item
    that fails a check ends the request. *)
Fixpoint verifyItems (ps : gmap N Product.t) (its : list ItemReq)
    (subtotal : Q) (orderItems : list Order.Item)
    : Response (Q * list Order.Item) :=
  match its with
  | [] => Ok (subtotal, orderItems)
  | item :: rest =>
      match ps !! product item with
      | None => Err (ProductNotFound (product item))
      | Some p =>
          if negb (Product.isActive p) then Err (ProductNotFound (product item))
          else
            match Product.findSize p (size item) with
            | None => Err (SizeNotAvailable (size item))
            | Some sizeObj =>
                if Product.stock sizeObj <? quantity item
                then Err (InsufficientStock (Product.name p))
                else
                  verifyItems ps rest
                    (subtotal + Product.price sizeObj * inject_Z (quantity item))%Q
                    (orderItems ++
                       [ {| Order.product := product item;
                            Order.name := Product.name p;
                            Order.image := firstImage p;
                            Order.size := size item;
                            Order.price := Product.price sizeObj;
                            Order.quantity := quantity item |} ])
            end
      end
  end.

(** "Calculate totals". *)
Definition shippingFor (subtotal : Q) : Q :=
  if Qle_bool 100 subtotal then 0%Q else (999 # 100)%Q.

Definition taxFor (subtotal : Q) : Q := round2 (subtotal * (5 # 100))%Q.

Definition discountFor (subtotal : Q) (code : option string) : Q :=
  if truthy code then round2 (subtotal * (10 # 100))%Q else 0%Q.

Definition calculateTotals (subtotal : Q) (code : option string) : Order.Pricing :=
  let shipping := shippingFor subtotal in
  let tax := taxFor subtotal in
  let discount := discountFor subtotal code in
  let total := round2 (subtotal + shipping + tax - discount)%Q in
  {| Order.subtotal := subtotal; Order.shipping := shipping;
     Order.tax := tax; Order.discount := discount; Order.total := total |}.

(** The document handed to [Order.create], schema defaults filled in. *)
Definition newOrder (user : AuthUser) (req : PlaceReq)
    (orderItems : list Order.Item) (pricing : Order.Pricing)
    (now : Timestamp) : Order.t :=
  {| Order.orderNumber := None;
     Order.user := uid user;
     Order.items := orderItems;
     Order.shippingAddress := shippingAddress req;
     Order.pricing := pricing;
     Order.coupon :=
       match coupon_code req with
       | Some c =>
           if truthy (coupon_code req)
           then Some {| Order.code := c;
                        Order.coupon_discount := Order.discount pricing |}
           else None
       | None => None
       end;
     Order.payment :=
       {| Order.method := or_default (payment_method req) "stripe";
          Order.payment_status := "pending";
          Order.stripePaymentId := None;
          Order.stripeClientSecret := None;
          Order.paidAt := None |};
     Order.status := "pending";
     Order.statusHistory :=
       [ {| Order.entry_status := "pending";
            Order.message := "Order placed successfully";
            Order.timestamp := now |} ];
     Order.tracking := None;
     Order.notes := notes req;
     Order.isGift := default false (isGift req);
     Order.giftMessage := giftMessage req |}.

(** "Reduce stock" / "Restore stock": one [updateOne] per line item. *)
Definition adjustStock (sign : Z) (its : list Order.Item)
    (ps : gmap N Product.t) : gmap N Product.t :=
  fold_left
    (fun ps item =>
       Product.updateOne_incStock (Order.product item) (Order.size item)
         (sign * Order.quantity item) ps)
    its ps.

(** [POST /api/orders]. *)
Definition placeOrder (db : Db) (user : AuthUser) (req : PlaceReq)
    (now : Timestamp) : Response (ObjectId * Order.t) * Db :=
  if negb (validationResult req) then (Err ValidationErrors, db)
  else
    match verifyItems (products db) (items req) 0%Q [] with
    | Err e => (Err e, db)
    | Ok (subtotal, orderItems) =>
        let pricing := calculateTotals subtotal (coupon_code req) in
        let doc := newOrder user req orderItems pricing now in
        if negb (Order.validate doc) then (Err OrderRejected, db)
        else
          let id := fresh (dom (orders db)) in
          let order := Order.preSave now (orders db) doc in
          let os := <[id := order]> (orders db) in
          let ps := adjustStock (-1) orderItems (products db) in
          (Ok (id, order), set_products (set_orders db os) ps)
    end.

(** [PUT /api/orders/:id/cancel]. *)
Definition cancelOrder (db : Db) (user : AuthUser) (id : ObjectId)
    (reason : option string) (now : Timestamp) : Response Order.t * Db :=
  match orders db !! id with
  | None => (Err OrderNotFound, db)
  | Some order =>
      if negb (N.eqb (Order.user order) (uid user)) then (Err NotAuthorized, db)
      else if negb (includes ["pending"; "confirmed"] (Order.status order))
      then (Err (CannotCancel (Order.status order)), db)
      else
        let order := Order.set_status order "cancelled" in
        let order :=
          Order.push_history order
            {| Order.entry_status := "cancelled";
               Order.message := or_default reason "Cancelled by customer";
               Order.timestamp := now |} in
        let order := Order.preSave now (orders db) order in
        let os := <[id := order]> (orders db) in
        let ps := adjustStock 1 (Order.items order) (products db) in
        (Ok order, set_products (set_orders db os) ps)
  end.

(** The body of [PUT /api/orders/:id/status]. *)
Record StatusReq := mkStatusReq {
  status : string;
  message : option string;
  tracking : option Order.Tracking
}.

Definition validStatuses : list string :=
  ["pending"; "confirmed"; "processing"; "shipped"; "delivered";
   "cancelled"; "refunded"].

(** [PUT /api/orders/:id/status], behind [adminOnly]. *)
Definition updateStatus (db : Db) (user : AuthUser) (id : ObjectId)
    (req : StatusReq) (now : Timestamp) : Response Order.t * Db :=
  if negb (String.eqb (role user) "admin") then (Err AdminsOnly, db)
  else if negb (includes validStatuses (status req)) then (Err InvalidStatus, db)
  else
    match orders db !! id with
    | None => (Err OrderNotFound, db)
    | Some order =>
        let order := Order.set_status order (status req) in
        let order :=
          Order.push_history order
            {| Order.entry_status := status req;
               Order.message :=
                 or_default (message req) ("Status updated to " +:+ status req);
               Order.timestamp := now |} in
        let order :=
          match tracking req with
          | Some tr => Order.set_tracking order (Some tr)
          | None => order
          end in
        let order :=
          if String.eqb (status req) "delivered"
          then Order.set_payment order
                 (Order.set_paidAt (Order.payment order) (Some now))
          else order in
        let order := Order.preSave now (orders db) order in
        (Ok order, set_orders db (<[id := order]> (orders db)))
    end.

End Orders.

(** ** routes/cart.js *)

Module Cart.

Record ItemReq := mkItemReq {
  productId : ObjectId;
  size : string;
  quantity : Z
}.

Record ValidatedItem := mkValidated {
  v_productId : ObjectId;
  v_name : string;
  v_image : option string;
  v_size : string;
  v_price : Q;
  v_stock : Z;
  v_quantity : Z;
  v_subtotal : Q
}.

Record Pricing := mkPricing {
  subtotal : Q;
  shipping : Q;
  tax : Q;
  total : Q
}.

(** [product.images[0]?.url || null]. *)
Definition firstImage (p : Product.t) : option string :=
  match Product.images p with
  | u :: _ => if String.eqb u "" then None else Some u
  | [] => None
  end.

(** The loop of [POST /api/cart/validate]. *)
Fixpoint validateItems (ps : gmap N Product.t) (its : list ItemReq)
    (subtotal : Q) (validatedItems : list ValidatedItem)
    : Response (Q * list ValidatedItem) :=
  match its with
  | [] => Ok (subtotal, validatedItems)
  | item :: rest =>
      match ps !! productId item with
      | None => Err (ProductNotFound (productId item))
      | Some p =>
          if negb (Product.isActive p) then Err (ProductNotFound (productId item))
          else
            match Product.findSize p (size item) with
            | None => Err (SizeNotAvailable (size item))
            | Some sizeObj =>
                validateItems ps rest
                  (subtotal + Product.price sizeObj * inject_Z (quantity item))%Q
                  (validatedItems ++
                     [ {| v_productId := productId item;
                          v_name := Product.name p;
                          v_image := firstImage p;
                          v_size := size item;
                          v_price := Product.price sizeObj;
                          v_stock := Product.stock sizeObj;
                          v_quantity := Z.min (quantity item) (Product.stock sizeObj);
                          v_subtotal :=
                            (Product.price sizeObj * inject_Z (quantity item))%Q |} ])
            end
      end
  end.

(** [POST /api/cart/validate]: reads the catalogue, writes nothing. *)
Definition validate (db : Db) (its : list ItemReq)
    : Response (list ValidatedItem * Pricing) :=
  match validateItems (products db) its 0%Q [] with
  | Err e => Err e
  | Ok (subtotal, validatedItems) =>
      let shipping := if Qle_bool 100 subtotal then 0%Q else (999 # 100)%Q in
      let tax := round2 (subtotal * (5 # 100))%Q in
      Ok (validatedItems,
          {| subtotal := subtotal; shipping := shipping; tax := tax;
             total := (subtotal + shipping + tax)%Q |})
  end.

Inductive CouponType := percentage | freeShipping | fixed.

Record CouponDef := mkCoupon {
  discount : Z;
  type : CouponType;
  description : string
}.

(** The object literal [coupons] of [POST /api/cart/coupon]. *)
Definition coupons : list (string * CouponDef) :=
  [ ("WELCOME10", {| discount := 10; type := percentage;
                     description := "10% off your first order" |});
    ("ATTAR20", {| discount := 20; type := percentage;
                   description := "20% discount" |});
    ("FREESHIP", {| discount := 0; type := freeShipping;
                    description := "Free shipping" |});
    ("ROYAL50", {| discount := 50; type := fixed;
                   description := "$50 off orders over $200" |}) ].

Definition upperAscii (c : ascii) : ascii :=
  let n := nat_of_ascii c in
  if ((97 <=? n) && (n <=? 122))%nat then ascii_of_nat (n - 32) else c.

(** [String.prototype.toUpperCase] on ASCII text. *)
Fixpoint toUpperCase (s : string) : string :=
  match s with
  | EmptyString => EmptyString
  | String c rest => String (upperAscii c) (toUpperCase rest)
  end.

Fixpoint lookupCoupon (tbl : list (string * CouponDef)) (k : string)
    : option CouponDef :=
  match tbl with
  | [] => None
  | (k', c) :: rest => if String.eqb k' k then Some c else lookupCoupon rest k
  end.

(** [POST /api/cart/coupon]: [coupons[code?.toUpperCase()]]. *)
Definition checkCoupon (code : option string) : Response (string * CouponDef) :=
  match code with
  | None => Err InvalidCoupon
  | Some c =>
      match lookupCoupon coupons (toUpperCase c) with
      | Some d => Ok (toUpperCase c, d)
      | None => Err InvalidCoupon
      end
  end.

End Cart.

(** ** routes/reviews.js *)

Module Reviews.

(** [POST /api/reviews/:id/helpful]. The response carries the new
    counter and whether the user now has a vote; [review.save()] runs
    the [post('save')] hook, which recomputes the product rating. *)
Definition toggleHelpful (db : Db) (user : AuthUser) (id : ObjectId)
    : Response (Z * bool) * Db :=
  match reviews db !! id with
  | None => (Err ReviewNotFound, db)
  | Some review =>
      let alreadyVoted := existsb (N.eqb (uid user)) (Review.votedBy review) in
      let review :=
        if alreadyVoted
        then Review.set_votes review (Review.helpfulVotes review - 1)
               (List.filter (fun v => negb (N.eqb v (uid user)))
                  (Review.votedBy review))
        else Review.set_votes review (Review.helpfulVotes review + 1)
               (Review.votedBy review ++ [uid user]) in
      let rs := <[id := review]> (reviews db) in
      let ps := Review.updateProductRating rs (Review.product review) (products db) in
      (Ok (Review.helpfulVotes review, negb alreadyVoted),
       set_products (set_reviews db rs) ps)
  end.

End Reviews.

(** ** routes/payments.js *)

Module Payments.

(** The Stripe events the webhook distinguishes, with the id of the
    payment intent they carry. *)
Inductive Event :=
| payment_intent_succeeded (intent : string)
| payment_intent_payment_failed (intent : string)
| other_event.

(** [Order.findOne({ 'payment.stripePaymentId': intent })]. *)
Definition findByIntent (os : gmap N Order.t) (intent : string)
    : option (ObjectId * Order.t) :=
  List.find
    (fun kv => bool_decide (Order.stripePaymentId (Order.payment (snd kv)) = Some intent))
    (map_to_list os).

(** [POST /api/payments/webhook] once the event has been verified. *)
Definition webhook (db : Db) (event : Event) (now : Timestamp) : Db :=
  match event with
  | payment_intent_succeeded intent =>
      match findByIntent (orders db) intent with
      | Some (id, order) =>
          let pay := Order.set_payment_status (Order.payment order) "paid" in
          let pay := Order.set_paidAt pay (Some now) in
          let order := Order.set_payment order pay in
          let order := Order.set_status order "confirmed" in
          let order :=
            Order.push_history order
              {| Order.entry_status := "confirmed";
                 Order.message := "Payment received successfully";
                 Order.timestamp := now |} in
          set_orders db (<[id := Order.preSave now (orders db) order]> (orders db))
      | None => db
      end
  | payment_intent_payment_failed intent =>
      match findByIntent (orders db) intent with
      | Some (id, order) =>
          let pay := Order.set_payment_status (Order.payment order) "failed" in
          let order := Order.set_payment order pay in
          set_orders db (<[id := Order.preSave now (orders db) order]> (orders db))
      | None => db
      end
  | other_event => db
  end.

(** [POST /api/payments/confirm-cod/:orderId]. *)
Definition confirmCod (db : Db) (id : ObjectId) (now : Timestamp)
    : Response Order.t * Db :=
  match orders db !! id with
  | None => (Err OrderNotFound, db)
  | Some order =>
      if negb (String.eqb (Order.method (Order.payment order)) "cod")
      then (Err NotCod, db)
      else
        let order := Order.set_status order "confirmed" in
        let order :=
          Order.push_history order
            {| Order.entry_status := "confirmed";
               Order.message := "Cash on delivery order confirmed";
               Order.timestamp := now |} in
        let order := Order.preSave now (orders db) order in
        (Ok order, set_orders db (<[id := order]> (orders db)))
  end.

End Payments.

(** * Vocabulary of the statements *)

(** What the positional increment does to one product document. *)
Definition incSizes (v : string) (d : Z) (p : Product.t) : Product.t :=
  Product.set_sizes p (Product.incFirst v d (Product.sizes p)).

(** Quantity an order holds of product [id] in size [v], over all of
    its line items. *)
Definition orderedQuantity (its : list Order.Item) (id : ObjectId) (v : string) : Z :=
  fold_right
    (fun it acc =>
       if N.eqb (Order.product it) id && String.eqb (Order.size it) v
       then Order.quantity it + acc else acc)
    0 its.

(** The request names an active product and one of its sizes. *)
Definition resolves (ps : gmap N Product.t) (id : ObjectId) (v : string) : Prop :=
  ∃ p s, ps !! id = Some p ∧ Product.isActive p = true
         ∧ Product.findSize p v = Some s.


(** The line item the loop of [placeOrder] builds for a request item
    that passes its three checks. *)
Definition snapshotOf (ps : gmap N Product.t) (item : Orders.ItemReq) (it : Order.Item) : Prop :=
  ∃ p sz, ps !! Orders.product item = Some p
    ∧ Product.isActive p = true
    ∧ Product.findSize p (Orders.size item) = Some sz
    ∧ Orders.quantity item <= Product.stock sz
    ∧ it = {| Order.product := Orders.product item;
              Order.name := Product.name p;
              Order.image := Orders.firstImage p;
              Order.size := Orders.size item;
              Order.price := Product.price sz;
              Order.quantity := Orders.quantity item |}.

(** Unit price times quantity of a line item, and its sum over an order. *)
Definition lineTotal (it : Order.Item) : Q :=
  (Order.price it * inject_Z (Order.quantity it))%Q.

Definition sumLines (its : list Order.Item) : Q :=
  fold_right (fun it acc => (lineTotal it + acc)%Q) 0%Q its.

(** The schema constraint [price: { min: 0 }] holds in the catalogue. *)
Definition pricesNonNegative (ps : gmap N Product.t) : Prop :=
  ∀ id p s, ps !! id = Some p → In s (Product.sizes p) → (0 <= Product.price s)%Q.

(** The users who have a helpful vote on a review. *)
Definition voterSet (r : Review.t) : gset N := list_to_set (Review.votedBy r).

(** The ratings sub-document a recomputation over the matched reviews
    [l] writes. *)
Definition meanRating (l : list Review.t) : Q :=
  (Review.sumRatings l / inject_Z (Z.of_nat (length l)))%Q.

Definition recomputed (l : list Review.t) : Product.Ratings :=
  {| Product.average := match l with [] => 0%Q | _ => round1 (meanRating l) end;
     Product.count := Z.of_nat (length l) |}.

(** The review a toggle by user [u] stores. *)
Definition toggled (u : N) (r : Review.t) : Review.t :=
  if existsb (N.eqb u) (Review.votedBy r)
  then Review.set_votes r (Review.helpfulVotes r - 1)
         (List.filter (fun v => negb (N.eqb v u)) (Review.votedBy r))
  else Review.set_votes r (Review.helpfulVotes r + 1)
         (Review.votedBy r ++ [u])%list.

(** The entry [validate] returns for a request item: the quantity is
    capped by the stock, the line subtotal is not. *)
Definition validatedAs (ps : gmap N Product.t) (item : Cart.ItemReq)
    (v : Cart.ValidatedItem) : Prop :=
  ∃ p sz, ps !! Cart.productId item = Some p
    ∧ Product.findSize p (Cart.size item) = Some sz
    ∧ Cart.v_price v = Product.price sz
    ∧ Cart.v_stock v = Product.stock sz
    ∧ Cart.v_quantity v = Z.min (Cart.quantity item) (Product.stock sz)
    ∧ Cart.v_subtotal v = (Product.price sz * inject_Z (Cart.quantity item))%Q.

Definition sumValidated (vs : list Cart.ValidatedItem) : Q :=
  fold_right (fun v acc => (Cart.v_subtotal v + acc)%Q) 0%Q vs.

(** ** A small catalogue and some requests, taken from seed.js *)

Module Sample.

Definition oud : Product.t :=
  {| Product.name := "Royal Hindi Oud";
     Product.sizes :=
       [ Product.mkSize "3ml" 75 30 (Some "RHO-3");
         Product.mkSize "6ml" 148 20 (Some "RHO-6");
         Product.mkSize "12ml" 285 10 (Some "RHO-12") ];
     Product.images := [];
     Product.ratings := Product.mkRatings 0 0;
     Product.isActive := true |}.

Definition lotus : Product.t :=
  {| Product.name := "Blue Lotus of Ceylon";
     Product.sizes :=
       [ Product.mkSize "3ml" 30 60 (Some "BLC-3");
         Product.mkSize "6ml" 60 40 (Some "BLC-6");
         Product.mkSize "12ml" 115 20 (Some "BLC-12") ];
     Product.images := ["lotus.png"];
     Product.ratings := Product.mkRatings 0 0;
     Product.isActive := true |}.

Definition catalogue : gmap N Product.t := <[1%N := oud]> (<[2%N := lotus]> ∅).

Definition db0 : Db := {| products := catalogue; orders := ∅; reviews := ∅ |}.

Definition customer : AuthUser := {| uid := 7%N; role := "user" |}.
Definition stranger : AuthUser := {| uid := 8%N; role := "user" |}.
Definition admin : AuthUser := {| uid := 9%N; role := "admin" |}.

Definition address : Order.Address :=
  {| Order.fullName := "Amal Karim"; Order.street := "1 Rose Street";
     Order.city := "Muscat"; Order.state := "Muscat"; Order.country := "Oman";
     Order.zipCode := "100"; Order.phone := "555" |}.

Definition request (its : list Orders.ItemReq) (code : option string)
    : Orders.PlaceReq :=
  {| Orders.items := its; Orders.shippingAddress := address;
     Orders.payment_method := None; Orders.notes := None;
     Orders.isGift := None; Orders.giftMessage := None;
     Orders.coupon_code := code |}.

(** Two lotus vials, 3ml twice and 6ml once. *)
Definition smallCart : list Orders.ItemReq :=
  [ Orders.mkItemReq 2 "3ml" 2; Orders.mkItemReq 2 "6ml" 1 ].

(** The second line asks for 11 of a size with 10 in stock. *)
Definition greedyCart : list Orders.ItemReq :=
  [ Orders.mkItemReq 2 "3ml" 2; Orders.mkItemReq 1 "12ml" 11 ].

(** The order [customer] gets for [smallCart] at time 1000, and the
    database the placement leaves behind. *)
Definition smallCartLines : list Order.Item :=
  [ {| Order.product := 2%N; Order.name := "Blue Lotus of Ceylon";
       Order.image := "lotus.png"; Order.size := "3ml";
       Order.price := 30; Order.quantity := 2 |};
    {| Order.product := 2%N; Order.name := "Blue Lotus of Ceylon";
       Order.image := "lotus.png"; Order.size := "6ml";
       Order.price := 60; Order.quantity := 1 |} ].

Definition order1 : Order.t :=
  Order.preSave 1000 ∅
    (Orders.newOrder customer (request smallCart None) smallCartLines
       (Orders.calculateTotals 120 None) 1000).

Definition db1 : Db :=
  {| products := Orders.adjustStock (-1) smallCartLines catalogue;
     orders := {[ 0%N := order1 ]};
     reviews := ∅ |}.

Definition statusReq (s : string) : Orders.StatusReq :=
  {| Orders.status := s; Orders.message := None; Orders.tracking := None |}.

(** [order1] once the admin has marked it as shipped at time 2000. *)
Definition shipped1 : Order.t :=
  Order.push_history (Order.set_status order1 "shipped")
    {| Order.entry_status := "shipped";
       Order.message := "Status updated to shipped";
       Order.timestamp := 2000 |}.

Definition db2 : Db := set_orders db1 {[ 0%N := shipped1 ]}.

(** [order1] once the payment webhook has marked it paid at time 1500
    (and confirmed it). *)
Definition paid1 : Order.t :=
  Order.push_history
    (Order.set_status
       (Order.set_payment order1
          (Order.set_paidAt
             (Order.set_payment_status (Order.payment order1) "paid")
             (Some 1500)))
       "confirmed")
    {| Order.entry_status := "confirmed";
       Order.message := "Payment received successfully";
       Order.timestamp := 1500 |}.

Definition dbPaid : Db := set_orders db1 {[ 0%N := paid1 ]}.

(** Three approved reviews of the lotus and one held back. *)
Definition review (u : ObjectId) (stars : Q) (approved : bool)
    (votes : Z) (voters : list ObjectId) : Review.t :=
  {| Review.user := u; Review.product := 2%N; Review.rating := stars;
     Review.title := "Lotus"; Review.comment := "A serene fragrance";
     Review.isVerifiedPurchase := false; Review.isApproved := approved;
     Review.helpfulVotes := votes; Review.votedBy := voters |}.

Definition someReviews : gmap N Review.t :=
  <[0%N := review 7 5 true 1 [8%N]]>
    (<[1%N := review 8 4 true 0 []]>
       (<[2%N := review 9 4 true 0 []]>
          (<[3%N := review 10 1 false 0 []]> ∅))).

Definition dbReviews : Db :=
  {| products := catalogue; orders := ∅; reviews := someReviews |}.

(** Eleven 12ml vials of the oud, of which ten are in stock. *)
Definition greedyCartReq : list Cart.ItemReq :=
  [ Cart.mkItemReq 1 "12ml" 11 ].

End Sample.

(** * Further handlers *)

(** The failure responses of the handlers below: the HTTP status and
    the message sent with it. *)
Inductive Refusal :=
| Invalid                                 (* 400, errors.array() of express-validator *)
| Refuse (code : nat) (message : string)  (* res.status(code).json({ message }) *)
| Thrown (code : nat).                    (* catch block: error.message of a schema error *)

Inductive Reply (A : Type) :=
| Sent (body : A)
| Refused (r : Refusal).
Arguments Sent {A} body.
Arguments Refused {A} r.

(** ** routes/orders.js: reading an order *)

Module OrderViews.

(** [GET /api/orders/:id]: only the owner or an admin can view. *)
Definition getOrder (db : Db) (user : AuthUser) (id : ObjectId) : Reply Order.t :=
  match orders db !! id with
  | None => Refused (Refuse 404 "Order not found")
  | Some order =>
      if negb (N.eqb (Order.user order) (uid user))
         && negb (String.eqb (role user) "admin")
      then Refused (Refuse 403 "Not authorized")
      else Sent order
  end.

End OrderViews.

(** ** routes/admin.js: inventory overview *)

Module Admin.

Record LowStock := mkLow {
  low_product : string;
  low_size : string;
  low_stock : Z;
  low_category : string
}.

Record OutOfStock := mkOut {
  out_product : string;
  out_size : string;
  out_category : string
}.

Record Inventory := mkInventory {
  lowStock : list LowStock;
  outOfStock : list OutOfStock;
  totalProducts : nat
}.

(** [Product.find({ isActive: true })], each document with its id. *)
Definition activeProducts (ps : gmap N Product.t) : list (ObjectId * Product.t) :=
  List.filter (fun kp => Product.isActive (snd kp)) (map_to_list ps).

(** The body of [p.sizes.forEach]; [category] is the product's category,
    a field the product record of this development does not carry. *)
Definition scanSize (name category : string)
    (acc : list LowStock * list OutOfStock) (s : Product.Size)
    : list LowStock * list OutOfStock :=
  if Product.stock s =? 0
  then (fst acc,
        (snd acc ++ [ {| out_product := name; out_size := Product.volume s;
                         out_category := category |} ])%list)
  else if Product.stock s <? 5
  then ((fst acc ++ [ {| low_product := name; low_size := Product.volume s;
                         low_stock := Product.stock s;
                         low_category := category |} ])%list,
        snd acc)
  else acc.

Definition scanProducts (categoryOf : ObjectId → string)
    (l : list (ObjectId * Product.t))
    (acc : list LowStock * list OutOfStock) : list LowStock * list OutOfStock :=
  fold_left
    (fun acc kp =>
       fold_left (scanSize (Product.name (snd kp)) (categoryOf (fst kp)))
         (Product.sizes (snd kp)) acc)
    l acc.

(** [GET /api/admin/inventory], behind [adminOnly]. *)
Definition inventory (categoryOf : ObjectId → string) (db : Db) (user : AuthUser)
    : Reply Inventory :=
  if negb (String.eqb (role user) "admin")
  then Refused (Refuse 403 "Access denied. Admins only.")
  else
    let products := activeProducts (products db) in
    let r := scanProducts categoryOf products ([], []) in
    Sent {| lowStock := fst r; outOfStock := snd r;
            totalProducts := length products |}.

End Admin.

(** ** routes/reviews.js: creating, editing and deleting a review *)

Module ReviewWrites.

(** The body of [POST /api/reviews]. *)
Record CreateReq := mkCreateReq {
  product : ObjectId;
  rating : Z;
  title : string;
  comment : string
}.

(** White space as [\s] sees it in ASCII text. *)
Definition isSpace (c : ascii) : bool :=
  let n := nat_of_ascii c in
  (((9 <=? n) && (n <=? 13)) || (n =? 32))%nat.

Fixpoint ltrim (s : string) : string :=
  match s with
  | String c rest => if isSpace c then ltrim rest else s
  | EmptyString => EmptyString
  end.

Fixpoint rtrim (s : string) : string :=
  match s with
  | String c rest =>
      match rtrim rest with
      | EmptyString => if isSpace c then EmptyString else String c EmptyString
      | r => String c r
      end
  | EmptyString => EmptyString
  end.

(** The [trim()] sanitizer of express-validator on ASCII text. *)
Definition trim (s : string) : string := rtrim (ltrim s).

(** The validation chain of [POST /api/reviews]; the product id is
    present by the type of the request. *)
Definition validationResult (req : CreateReq) : bool :=
  (1 <=? rating req) && (rating req <=? 5)
  && negb (String.eqb (trim (title req)) "")
  && (10 <=? String.length (trim (comment req)))%nat.

(** [Review.findOne({ user, product })]. *)
Definition findExisting (rs : gmap N Review.t) (user product : ObjectId)
    : option (ObjectId * Review.t) :=
  List.find
    (fun kr => N.eqb (Review.user (snd kr)) user
               && N.eqb (Review.product (snd kr)) product)
    (map_to_list rs).

(** [Order.findOne({ user, 'items.product': product, status: 'delivered' })]. *)
Definition hasPurchased (os : gmap N Order.t) (user product : ObjectId)
    : option (ObjectId * Order.t) :=
  List.find
    (fun ko => N.eqb (Order.user (snd ko)) user
               && existsb (fun it => N.eqb (Order.product it) product)
                    (Order.items (snd ko))
               && String.eqb (Order.status (snd ko)) "delivered")
    (map_to_list os).

(** Schema validation of a review on save: [rating] within 1..5,
    [title] and [comment] required and within their [maxlength]. *)
Definition validate (r : Review.t) : bool :=
  Qle_bool 1 (Review.rating r) && Qle_bool (Review.rating r) 5
  && negb (String.eqb (Review.title r) "")
  && (String.length (Review.title r) <=? 100)%nat
  && negb (String.eqb (Review.comment r) "")
  && (String.length (Review.comment r) <=? 1000)%nat.

(** [review.save()] / [Review.create]: store the document, then the
    [post('save')] hook recomputes the rating of its product. *)
Definition save (db : Db) (id : ObjectId) (r : Review.t) : Db :=
  let rs := <[id := r]> (reviews db) in
  set_products (set_reviews db rs)
    (Review.updateProductRating rs (Review.product r) (products db)).

(** [POST /api/reviews]. *)
Definition createReview (db : Db) (user : AuthUser) (req : CreateReq)
    : Reply (ObjectId * Review.t) * Db :=
  if negb (validationResult req) then (Refused Invalid, db)
  else
    match findExisting (reviews db) (uid user) (product req) with
    | Some _ =>
        (Refused (Refuse 400 "You have already reviewed this product"), db)
    | None =>
        let review :=
          {| Review.user := uid user;
             Review.product := product req;
             Review.rating := inject_Z (rating req);
             Review.title := trim (title req);
             Review.comment := trim (comment req);
             Review.isVerifiedPurchase :=
               match hasPurchased (orders db) (uid user) (product req) with
               | Some _ => true
               | None => false
               end;
             Review.isApproved := true;
             Review.helpfulVotes := 0;
             Review.votedBy := [] |} in
        if negb (validate review) then (Refused (Thrown 400), db)
        else
          let id := fresh (dom (reviews db)) in
          (Sent (id, review), save db id review)
    end.

(** The body of [PUT /api/reviews/:id]; an absent field is [None]. *)
Record UpdateReq := mkUpdateReq {
  new_rating : option Q;
  new_title : option string;
  new_comment : option string
}.

(** [rating || review.rating]: 0 and a missing value are falsy. *)
Definition rating_or (r : option Q) (d : Q) : Q :=
  match r with
  | Some q => if Qeq_bool q 0 then d else q
  | None => d
  end.

Definition set_content (r : Review.t) (rating : Q) (title comment : string)
    : Review.t :=
  {| Review.user := Review.user r; Review.product := Review.product r;
     Review.rating := rating; Review.title := title; Review.comment := comment;
     Review.isVerifiedPurchase := Review.isVerifiedPurchase r;
     Review.isApproved := Review.isApproved r;
     Review.helpfulVotes := Review.helpfulVotes r;
     Review.votedBy := Review.votedBy r |}.

(** [PUT /api/reviews/:id]. *)
Definition updateReview (db : Db) (user : AuthUser) (id : ObjectId)
    (req : UpdateReq) : Reply Review.t * Db :=
  match reviews db !! id with
  | None => (Refused (Refuse 404 "Review not found"), db)
  | Some review =>
      if negb (N.eqb (Review.user review) (uid user))
      then (Refused (Refuse 403 "Not authorized to edit this review"), db)
      else
        let review :=
          set_content review
            (rating_or (new_rating req) (Review.rating review))
            (or_default (new_title req) (Review.title review))
            (or_default (new_comment req) (Review.comment review)) in
        if negb (validate review) then (Refused (Thrown 400), db)
        else (Sent review, save db id review)
  end.

(** [DELETE /api/reviews/:id]: [review.deleteOne()] and its hook. *)
Definition deleteReview (db : Db) (user : AuthUser) (id : ObjectId)
    : Reply unit * Db :=
  match reviews db !! id with
  | None => (Refused (Refuse 404 "Review not found"), db)
  | Some review =>
      let isOwner := N.eqb (Review.user review) (uid user) in
      let isAdmin := String.eqb (role user) "admin" in
      if negb isOwner && negb isAdmin
      then (Refused (Refuse 403 "Not authorized"), db)
      else
        let rs := delete id (reviews db) in
        (Sent tt,
         set_products (set_reviews db rs)
           (Review.updateProductRating rs (Review.product review) (products db)))
  end.

End ReviewWrites.

(** ** routes/payments.js: creating a payment intent *)

Module PaymentIntents.

(** What [stripe.paymentIntents.create] is asked for and what it answers. *)
Record IntentParams := mkParams {
  amount : Z;
  currency : string;
  metadata_orderId : ObjectId
}.

Record Intent := mkIntent {
  id : string;
  client_secret : string
}.

Record Created := mkCreated {
  clientSecret : string;
  paymentIntentId : string;
  created_amount : Q
}.

Definition set_stripe (p : Order.Payment) (i : Intent) : Order.Payment :=
  {| Order.method := Order.method p;
     Order.payment_status := Order.payment_status p;
     Order.stripePaymentId := Some (id i);
     Order.stripeClientSecret := Some (client_secret i);
     Order.paidAt := Order.paidAt p |}.

(** The parameters of the gateway call for an order: the total in cents. *)
Definition intentParams (orderId : ObjectId) (order : Order.t) : IntentParams :=
  {| amount := Math_round (Order.total (Order.pricing order) * 100);
     currency := "usd";
     metadata_orderId := orderId |}.

(** [POST /api/payments/create-intent]. [stripe] tells whether the
    gateway is configured and [gateway] is the payment gateway: the
    answer it gives to the call the handler makes. *)
Definition createIntent (stripe : bool) (gateway : IntentParams → Intent)
    (db : Db) (user : AuthUser) (orderId : ObjectId) (now : Timestamp)
    : Reply Created * Db :=
  if negb stripe
  then (Refused
          (Refuse 503
             "Payment service not configured. Add STRIPE_SECRET_KEY to .env"),
        db)
  else
    match orders db !! orderId with
    | None => (Refused (Refuse 404 "Order not found"), db)
    | Some order =>
        if negb (N.eqb (Order.user order) (uid user))
        then (Refused (Refuse 403 "Not authorized"), db)
        else
          let paymentIntent := gateway (intentParams orderId order) in
          let order :=
            Order.set_payment order (set_stripe (Order.payment order) paymentIntent) in
          let order := Order.preSave now (orders db) order in
          (Sent {| clientSecret := client_secret paymentIntent;
                   paymentIntentId := id paymentIntent;
                   created_amount := Order.total (Order.pricing order) |},
           set_orders db (<[orderId := order]> (orders db)))
    end.

End PaymentIntents.

(** ** models/Product.js: the slug of a product name *)

Module Slug.

Definition lowerAscii (c : ascii) : ascii :=
  let n := nat_of_ascii c in
  if ((65 <=? n) && (n <=? 90))%nat then ascii_of_nat (n + 32) else c.

(** [String.prototype.toLowerCase] on ASCII text. *)
Fixpoint toLowerCase (s : string) : string :=
  match s with
  | EmptyString => EmptyString
  | String c rest => String (lowerAscii c) (toLowerCase rest)
  end.

(** The character class [a-z0-9]. *)
Definition isSlugChar (c : ascii) : bool :=
  let n := nat_of_ascii c in
  (((97 <=? n) && (n <=? 122)) || ((48 <=? n) && (n <=? 57)))%nat.

(** [.replace(/[^a-z0-9]+/g, '-')]: [inRun] tells that the preceding
    character was outside the class and has been replaced already. *)
Fixpoint replaceRuns (inRun : bool) (s : string) : string :=
  match s with
  | EmptyString => EmptyString
  | String c rest =>
      if isSlugChar c then String c (replaceRuns false rest)
      else if inRun then replaceRuns true rest
      else String "-" (replaceRuns true rest)
  end.

Definition dropLeadingDash (s : string) : string :=
  match s with
  | String "-" rest => rest
  | _ => s
  end.

Fixpoint dropTrailingDash (s : string) : string :=
  match s with
  | EmptyString => EmptyString
  | String c EmptyString => if Ascii.eqb c "-" then EmptyString else s
  | String c rest => String c (dropTrailingDash rest)
  end.

(** [.replace(/(^-|-$)/g, '')]. *)
Definition stripDashes (s : string) : string :=
  dropTrailingDash (dropLeadingDash s).

(** The slug the [pre('save')] hook derives from a modified name. *)
Definition slugify (name : string) : string :=
  stripDashes (replaceRuns false (toLowerCase name)).

End Slug.

(** ** routes/users.js: wishlist and addresses *)

Module Users.

Record Address := mkAddress {
  _id : ObjectId;
  label : string;
  fullName : string;
  street : string;
  city : string;
  state : string;
  country : string;
  zipCode : string;
  phone : string;
  isDefault : bool
}.

(** The fields of a user document the profile routes touch. *)
Record t := mk {
  addresses : list Address;
  wishlist : list ObjectId
}.

Definition set_wishlist (u : t) (w : list ObjectId) : t :=
  {| addresses := addresses u; wishlist := w |}.

Definition set_addresses (u : t) (a : list Address) : t :=
  {| addresses := a; wishlist := wishlist u |}.

(** [POST /api/users/wishlist/:productId]; the response carries
    [wishlistCount]. A missing user document makes the handler throw. *)
Definition addToWishlist (users : gmap N t) (user : AuthUser)
    (productId : ObjectId) : Reply nat * gmap N t :=
  match users !! uid user with
  | None => (Refused (Thrown 500), users)
  | Some u =>
      if existsb (N.eqb productId) (wishlist u)
      then (Refused (Refuse 400 "Product already in wishlist"), users)
      else
        let u := set_wishlist u (wishlist u ++ [productId])%list in
        (Sent (length (wishlist u)), <[uid user := u]> users)
  end.

(** [DELETE /api/users/wishlist/:productId]. *)
Definition removeFromWishlist (users : gmap N t) (user : AuthUser)
    (productId : ObjectId) : Reply nat * gmap N t :=
  match users !! uid user with
  | None => (Refused (Thrown 500), users)
  | Some u =>
      let u :=
        set_wishlist u
          (List.filter (fun id => negb (N.eqb id productId)) (wishlist u)) in
      (Sent (length (wishlist u)), <[uid user := u]> users)
  end.

(** The body of the address routes; an absent field is [None]. *)
Record AddressReq := mkAddressReq {
  req_label : option string;
  req_fullName : option string;
  req_street : option string;
  req_city : option string;
  req_state : option string;
  req_country : option string;
  req_zipCode : option string;
  req_phone : option string;
  req_isDefault : option bool
}.

Definition clearDefault (a : Address) : Address :=
  {| _id := _id a; label := label a; fullName := fullName a;
     street := street a; city := city a; state := state a;
     country := country a; zipCode := zipCode a; phone := phone a;
     isDefault := false |}.

(** [if (req.body.isDefault) user.addresses.forEach(a => a.isDefault = false)]. *)
Definition resetDefaults (req : AddressReq) (l : list Address) : list Address :=
  if default false (req_isDefault req) then clearDefault <$> l else l.

(** The subdocument [addresses.push(req.body)] creates: schema defaults
    for [label] and [isDefault], a new [_id]. *)
Definition newAddress (id : ObjectId) (req : AddressReq) : Address :=
  {| _id := id;
     label := default "Home" (req_label req);
     fullName := default "" (req_fullName req);
     street := default "" (req_street req);
     city := default "" (req_city req);
     state := default "" (req_state req);
     country := default "" (req_country req);
     zipCode := default "" (req_zipCode req);
     phone := default "" (req_phone req);
     isDefault := default false (req_isDefault req) |}.

(** [Object.assign(addr, req.body)]: the fields present overwrite. *)
Definition assign (a : Address) (req : AddressReq) : Address :=
  {| _id := _id a;
     label := default (label a) (req_label req);
     fullName := default (fullName a) (req_fullName req);
     street := default (street a) (req_street req);
     city := default (city a) (req_city req);
     state := default (state a) (req_state req);
     country := default (country a) (req_country req);
     zipCode := default (zipCode a) (req_zipCode req);
     phone := default (phone a) (req_phone req);
     isDefault := default (isDefault a) (req_isDefault req) |}.

(** [Object.assign] on the subdocument [addresses.id(addressId)] found. *)
Fixpoint assignFirst (addressId : ObjectId) (req : AddressReq)
    (l : list Address) : list Address :=
  match l with
  | [] => []
  | a :: rest =>
      if N.eqb (_id a) addressId then assign a req :: rest
      else a :: assignFirst addressId req rest
  end.

(** [POST /api/users/addresses]. *)
Definition addAddress (users : gmap N t) (user : AuthUser) (req : AddressReq)
    : Reply (list Address) * gmap N t :=
  match users !! uid user with
  | None => (Refused (Thrown 400), users)
  | Some u =>
      let l := resetDefaults req (addresses u) in
      let id := fresh (_id <$> l) in
      let u := set_addresses u (l ++ [newAddress id req])%list in
      (Sent (addresses u), <[uid user := u]> users)
  end.

(** [PUT /api/users/addresses/:addressId]: [addresses.id(addressId)] is
    the first subdocument with that [_id]. *)
Definition updateAddress (users : gmap N t) (user : AuthUser)
    (addressId : ObjectId) (req : AddressReq)
    : Reply (list Address) * gmap N t :=
  match users !! uid user with
  | None => (Refused (Thrown 400), users)
  | Some u =>
      match List.find (fun a => N.eqb (_id a) addressId) (addresses u) with
      | None => (Refused (Refuse 404 "Address not found"), users)
      | Some _ =>
          let l := resetDefaults req (addresses u) in
          let l := assignFirst addressId req l in
          let u := set_addresses u l in
          (Sent (addresses u), <[uid user := u]> users)
      end
  end.

(** [DELETE /api/users/addresses/:addressId]. *)
Definition deleteAddress (users : gmap N t) (user : AuthUser)
    (addressId : ObjectId) : Reply (list Address) * gmap N t :=
  match users !! uid user with
  | None => (Refused (Thrown 500), users)
  | Some u =>
      let u :=
        set_addresses u
          (List.filter (fun a => negb (N.eqb (_id a) addressId)) (addresses u)) in
      (Sent (addresses u), <[uid user := u]> users)
  end.

End Users.

(** * Vocabulary of the further statements *)

(** One request served by the shop: the database before and after one
    of the handlers that write to it. *)
Inductive step (db : Db) : Db → Prop :=
| step_placeOrder user req now :
    step db (snd (Orders.placeOrder db user req now))
| step_cancelOrder user id reason now :
    step db (snd (Orders.cancelOrder db user id reason now))
| step_updateStatus user id req now :
    step db (snd (Orders.updateStatus db user id req now))
| step_webhook event now :
    step db (Payments.webhook db event now)
| step_confirmCod id now :
    step db (snd (Payments.confirmCod db id now))
| step_createIntent stripe gateway user orderId now :
    step db (snd (PaymentIntents.createIntent stripe gateway db user orderId now))
| step_toggleHelpful user id :
    step db (snd (Reviews.toggleHelpful db user id))
| step_createReview user req :
    step db (snd (ReviewWrites.createReview db user req))
| step_updateReview user id req :
    step db (snd (ReviewWrites.updateReview db user id req))
| step_deleteReview user id :
    step db (snd (ReviewWrites.deleteReview db user id)).

(** The part of an order no handler rewrites: owner, line items,
    address, pricing, an order number once given, and the history
    written so far. *)
Definition orderKept (o o' : Order.t) : Prop :=
  Order.user o' = Order.user o
  ∧ Order.items o' = Order.items o
  ∧ Order.shippingAddress o' = Order.shippingAddress o
  ∧ Order.pricing o' = Order.pricing o
  ∧ (∀ n, Order.orderNumber o = Some n → Order.orderNumber o' = Some n)
  ∧ Order.statusHistory o `prefix_of` Order.statusHistory o'.

Definition ordersKept (os os' : gmap N Order.t) : Prop :=
  ∀ id o, os !! id = Some o → ∃ o', os' !! id = Some o' ∧ orderKept o o'.

(** The status of an order is the one its last history entry records. *)
Definition statusLogged (o : Order.t) : Prop :=
  Order.entry_status <$> last (Order.statusHistory o) = Some (Order.status o).

(** Every order has a number, the sequence parts are within the size of
    the collection and no two orders share one. *)
Definition sequenceOf (o : Order.t) : option nat := snd <$> Order.orderNumber o.

Definition numbered (os : gmap N Order.t) : Prop :=
  (∀ id o, os !! id = Some o →
     ∃ k, sequenceOf o = Some k ∧ (1 ≤ k ≤ size os)%nat)
  ∧ (∀ id1 id2 o1 o2, os !! id1 = Some o1 → os !! id2 = Some o2 →
       sequenceOf o1 = sequenceOf o2 → id1 = id2).

(** An order written by a handler: a new one under an unused id, logged
    and numbered after the size of the collection, or an existing one
    with its fixed part kept. *)
Definition written (os : gmap N Order.t) (id : ObjectId) (o' : Order.t) : Prop :=
  (os !! id = None ∧ statusLogged o'
   ∧ ∃ t, Order.orderNumber o' = Some (t, S (size os)))
  ∨ (∃ o, os !! id = Some o ∧ orderKept o o' ∧ (statusLogged o → statusLogged o')).





(** At most one review per user and product. *)
Definition oneReviewEach (rs : gmap N Review.t) : Prop :=
  ∀ id1 id2 r1 r2,
    rs !! id1 = Some r1 → rs !! id2 = Some r2 →
    Review.user r1 = Review.user r2 → Review.product r1 = Review.product r2 →
    id1 = id2.

(** Every stored rating lies between 1 and 5. *)
Definition ratingsInRange (rs : gmap N Review.t) : Prop :=
  ∀ id r, rs !! id = Some r → (1 <= Review.rating r)%Q ∧ (Review.rating r <= 5)%Q.


(** A review written by a handler: a new one, validated, by a user who
    had none for that product, or an existing one with its user and
    product kept and its rating kept or validated. *)
Definition reviewWritten (rs : gmap N Review.t) (id : ObjectId) (r : Review.t) : Prop :=
  (rs !! id = None
   ∧ (∀ k r', rs !! k = Some r' →
        ¬ (Review.user r' = Review.user r ∧ Review.product r' = Review.product r))
   ∧ (1 <= Review.rating r)%Q ∧ (Review.rating r <= 5)%Q)
  ∨ (∃ r0, rs !! id = Some r0
       ∧ Review.user r = Review.user r0
       ∧ Review.product r = Review.product r0
       ∧ (Review.rating r = Review.rating r0
          ∨ ((1 <= Review.rating r)%Q ∧ (Review.rating r <= 5)%Q))).


(** The same order request with another coupon code. *)
Definition withCoupon (req : Orders.PlaceReq) (code : option string)
    : Orders.PlaceReq :=
  {| Orders.items := Orders.items req;
     Orders.shippingAddress := Orders.shippingAddress req;
     Orders.payment_method := Orders.payment_method req;
     Orders.notes := Orders.notes req;
     Orders.isGift := Orders.isGift req;
     Orders.giftMessage := Orders.giftMessage req;
     Orders.coupon_code := code |}.

(** An order line item as the cart validation is asked about it. *)
Definition toCart (it : Orders.ItemReq) : Cart.ItemReq :=
  {| Cart.productId := Orders.product it; Cart.size := Orders.size it;
     Cart.quantity := Orders.quantity it |}.

(** A validated cart entry and an order line item that agree. *)
Definition sameLine (it : Order.Item) (v : Cart.ValidatedItem) : Prop :=
  Cart.v_productId v = Order.product it
  ∧ Cart.v_size v = Order.size it
  ∧ Cart.v_price v = Order.price it
  ∧ Cart.v_quantity v = Order.quantity it
  ∧ Cart.v_subtotal v = lineTotal it.

(** A slug in the making: every character is in [a-z0-9] or a dash, no
    two dashes are adjacent, and with [afterDash] the text does not
    start with a dash. *)
Fixpoint okChars (afterDash : bool) (s : string) : bool :=
  match s with
  | EmptyString => true
  | String c rest =>
      if Slug.isSlugChar c then okChars false rest
      else if Ascii.eqb c "-" then negb afterDash && okChars true rest
      else false
  end.

Fixpoint endsWithDash (s : string) : bool :=
  match s with
  | EmptyString => false
  | String c EmptyString => Ascii.eqb c "-"
  | String _ rest => endsWithDash rest
  end.

(** The number of default addresses of a user. *)
Definition countDefault (l : list Users.Address) : nat :=
  length (List.filter Users.isDefault l).

(** ** More sample data *)

Module MoreSamples.

Definition lotusReq : ReviewWrites.CreateReq :=
  {| ReviewWrites.product := 2%N; ReviewWrites.rating := 5;
     ReviewWrites.title := "  Lotus ";
     ReviewWrites.comment := "A serene fragrance" |}.

(** The review the customer gets stored for [lotusReq]; the customer
    has no delivered order in [Sample.db1]. *)
Definition lotusReview : Review.t :=
  {| Review.user := 7%N; Review.product := 2%N; Review.rating := 5;
     Review.title := "Lotus"; Review.comment := "A serene fragrance";
     Review.isVerifiedPurchase := false; Review.isApproved := true;
     Review.helpfulVotes := 0; Review.votedBy := [] |}.

(** A catalogue with an inactive product, a sold-out size, a scarce
    size and an oversold one. *)
Definition shelf : gmap N Product.t :=
  <[1%N := {| Product.name := "Mysore Shamama";
              Product.sizes :=
                [ Product.mkSize "3ml" 110 0 (Some "MSH-3");
                  Product.mkSize "6ml" 220 4 (Some "MSH-6");
                  Product.mkSize "12ml" 420 5 (Some "MSH-12") ];
              Product.images := [];
              Product.ratings := Product.mkRatings 0 0;
              Product.isActive := true |}]>
    (<[2%N := {| Product.name := "Black Oud Cambodian";
                 Product.sizes := [ Product.mkSize "3ml" 185 (-2) (Some "BOC-3") ];
                 Product.images := [];
                 Product.ratings := Product.mkRatings 0 0;
                 Product.isActive := true |}]>
       (<[3%N := {| Product.name := "Retired";
                    Product.sizes := [ Product.mkSize "3ml" 10 0 None ];
                    Product.images := [];
                    Product.ratings := Product.mkRatings 0 0;
                    Product.isActive := false |}]> ∅)).

Definition shelfDb : Db := {| products := shelf; orders := ∅; reviews := ∅ |}.

Definition categoryOf (id : ObjectId) : string :=
  if N.eqb id 1 then "Spice & Oriental" else "Oud & Agarwood".

Definition home : Users.Address :=
  {| Users._id := 0%N; Users.label := "Home"; Users.fullName := "Amal Karim";
     Users.street := "1 Rose Street"; Users.city := "Muscat";
     Users.state := "Muscat"; Users.country := "Oman"; Users.zipCode := "100";
     Users.phone := "555"; Users.isDefault := true |}.

(** The customer's profile: one default address, the oud on the
    wishlist. *)
Definition profiles : gmap N Users.t :=
  {[ 7%N := {| Users.addresses := [home]; Users.wishlist := [1%N] |} ]}.

Definition officeReq : Users.AddressReq :=
  {| Users.req_label := Some "Office"; Users.req_fullName := Some "Amal Karim";
     Users.req_street := Some "2 Amber Road"; Users.req_city := Some "Muscat";
     Users.req_state := None; Users.req_country := Some "Oman";
     Users.req_zipCode := None; Users.req_phone := None;
     Users.req_isDefault := Some true |}.

End MoreSamples.

(** * Properties *)

(** ** Stock counters under the positional increment *)

Section StockUpdates.

Implicit Types (ps : gmap N Product.t) (ss : list Product.Size).

Lemma set_sizes_same (p : Product.t) : Product.set_sizes p (Product.sizes p) = p.
Proof. by destruct p. Qed.

Lemma incFirst_no_match v d ss :
  existsb (fun s => String.eqb (Product.volume s) v) ss = false →
  Product.incFirst v d ss = ss.
Proof.
  induction ss as [|s ss IH]; simpl; [done|].
  destruct (String.eqb (Product.volume s) v); simpl; [done|].
  intros H. by rewrite IH.
Qed.

Lemma incFirst_zero v ss : Product.incFirst v 0 ss = ss.
Proof.
  induction ss as [|s ss IH]; simpl; [done|].
  destruct (String.eqb (Product.volume s) v).
  - destruct s; unfold Product.set_stock; simpl. by rewrite Z.add_0_r.
  - by rewrite IH.
Qed.

Lemma incFirst_add v d d' ss :
  Product.incFirst v d (Product.incFirst v d' ss) = Product.incFirst v (d' + d) ss.
Proof.
  induction ss as [|s ss IH]; simpl; [done|].
  destruct (String.eqb (Product.volume s) v) eqn:E; simpl; rewrite E.
  - unfold Product.set_stock; simpl. by rewrite Z.add_assoc.
  - by rewrite IH.
Qed.

Lemma incFirst_comm v d v' d' ss :
  Product.incFirst v d (Product.incFirst v' d' ss)
  = Product.incFirst v' d' (Product.incFirst v d ss).
Proof.
  induction ss as [|s ss IH]; simpl; [done|].
  destruct (String.eqb (Product.volume s) v) eqn:E,
           (String.eqb (Product.volume s) v') eqn:E'; simpl; rewrite ?E, ?E'.
  - unfold Product.set_stock; simpl. f_equal. f_equal. lia.
  - done.
  - done.
  - by rewrite IH.
Qed.

Lemma updateOne_alter id v d ps :
  Product.updateOne_incStock id v d ps = alter (incSizes v d) id ps.
Proof.
  unfold Product.updateOne_incStock.
  destruct (ps !! id) as [p|] eqn:Hp.
  - destruct (existsb _ _) eqn:E.
    + apply map_eq; intros k. rewrite lookup_alter, lookup_insert.
      destruct (decide (id = k)) as [->|]; [by rewrite Hp|done].
    + apply map_eq; intros k. rewrite lookup_alter.
      destruct (decide (id = k)) as [->|]; [|done].
      rewrite Hp; simpl. unfold incSizes.
      by rewrite incFirst_no_match, set_sizes_same.
  - apply map_eq; intros k. rewrite lookup_alter.
    destruct (decide (id = k)) as [->|]; [by rewrite Hp|done].
Qed.

Lemma incSizes_comm v d v' d' p :
  incSizes v d (incSizes v' d' p) = incSizes v' d' (incSizes v d p).
Proof. unfold incSizes, Product.set_sizes; simpl. f_equal. apply incFirst_comm. Qed.

Lemma updateOne_comm id v d id' v' d' ps :
  Product.updateOne_incStock id v d (Product.updateOne_incStock id' v' d' ps)
  = Product.updateOne_incStock id' v' d' (Product.updateOne_incStock id v d ps).
Proof.
  rewrite !updateOne_alter. apply map_eq; intros k.
  rewrite !lookup_alter.
  repeat case_decide; simplify_eq; try done.
  destruct (ps !! _); simpl; [|done]. f_equal. apply incSizes_comm.
Qed.

Lemma updateOne_cancel id v d ps :
  Product.updateOne_incStock id v d (Product.updateOne_incStock id v (- d) ps) = ps.
Proof.
  rewrite !updateOne_alter. apply map_eq; intros k.
  rewrite !lookup_alter.
  repeat case_decide; simplify_eq; try done.
  destruct (ps !! _) as [p|]; simpl; [|done]. f_equal.
  unfold incSizes, Product.set_sizes; simpl.
  rewrite incFirst_add, Z.add_opp_diag_l, incFirst_zero. by destruct p.
Qed.

Lemma adjustStock_cons sign it its ps :
  Orders.adjustStock sign (it :: its) ps
  = Orders.adjustStock sign its
      (Product.updateOne_incStock (Order.product it) (Order.size it)
         (sign * Order.quantity it) ps).
Proof. done. Qed.

Lemma updateOne_adjustStock id v d sign its ps :
  Product.updateOne_incStock id v d (Orders.adjustStock sign its ps)
  = Orders.adjustStock sign its (Product.updateOne_incStock id v d ps).
Proof.
  revert ps. induction its as [|it its IH]; intros ps; [done|].
  rewrite !adjustStock_cons, IH. f_equal. apply updateOne_comm.
Qed.

(** Restoring after reducing gives back the catalogue, whatever the
    line items are (also when two of them name the same size, or name
    a product or size that does not exist). *)
Lemma adjustStock_restore its ps :
  Orders.adjustStock 1 its (Orders.adjustStock (-1) its ps) = ps.
Proof.
  revert ps. induction its as [|it its IH]; intros ps; [done|].
  rewrite !adjustStock_cons, <- updateOne_adjustStock, IH.
  replace (-1 * Order.quantity it) with (- (1 * Order.quantity it)) by lia.
  apply updateOne_cancel.
Qed.

Lemma find_incFirst v d v' ss :
  List.find (fun s => String.eqb (Product.volume s) v') (Product.incFirst v d ss)
  = (fun s => if String.eqb v v'
              then Product.set_stock s (Product.stock s + d) else s)
    <$> List.find (fun s => String.eqb (Product.volume s) v') ss.
Proof.
  induction ss as [|s ss IH]; simpl; [done|].
  destruct (String.eqb (Product.volume s) v) eqn:E,
           (String.eqb (Product.volume s) v') eqn:E'; simpl; rewrite ?E'.
  - apply String.eqb_eq in E, E'. rewrite <- E, <- E', String.eqb_refl. done.
  - apply String.eqb_eq in E. rewrite <- E, E'.
    by destruct (List.find _ ss).
  - apply String.eqb_eq in E'. rewrite <- E', String.eqb_sym, E. done.
  - apply IH.
Qed.

Lemma stockOf_updateOne id v d ps id' v' :
  Product.stockOf (Product.updateOne_incStock id v d ps) id' v'
  = (fun n => n + (if N.eqb id id' && String.eqb v v' then d else 0))
    <$> Product.stockOf ps id' v'.
Proof.
  rewrite updateOne_alter. unfold Product.stockOf. rewrite lookup_alter.
  case_decide as Hid.
  - subst id'. rewrite N.eqb_refl; simpl.
    destruct (ps !! id) as [p|]; simpl; [|done].
    unfold Product.findSize, incSizes; simpl. rewrite find_incFirst.
    destruct (List.find _ (Product.sizes p)) as [s|]; simpl; [|done].
    destruct (String.eqb v v'); simpl; [done|]. by rewrite Z.add_0_r.
  - apply N.eqb_neq in Hid. rewrite Hid; simpl.
    destruct (ps !! id'); simpl; [|done].
    destruct (Product.findSize _ _); simpl; [|done]. by rewrite Z.add_0_r.
Qed.

(** Every counter moves by the signed quantity the line items hold
    of it, and by nothing else. *)
Lemma stockOf_adjustStock sign its ps id v :
  Product.stockOf (Orders.adjustStock sign its ps) id v
  = (fun n => n + sign * orderedQuantity its id v) <$> Product.stockOf ps id v.
Proof.
  revert ps. induction its as [|it its IH]; intros ps.
  - simpl. destruct (Product.stockOf ps id v); simpl; [|done].
    f_equal. lia.
  - rewrite adjustStock_cons, IH, stockOf_updateOne.
    destruct (Product.stockOf ps id v); simpl; [|done].
    f_equal. destruct (_ && _); lia.
Qed.

End StockUpdates.

(** ** Placing an order *)

Section PlaceOrder.

Implicit Types (ps : gmap N Product.t) (its : list Orders.ItemReq).



End PlaceOrder.



(** The sample request is refused on its second line. *)
Example placeOrder_greedyCart :
  Orders.placeOrder Sample.db0 Sample.customer
    (Sample.request Sample.greedyCart None) 1000
  = (Err (InsufficientStock "Royal Hindi Oud"), Sample.db0).
Proof. vm_compute. reflexivity. Qed.

(** ** Cancelling an order *)

Lemma includes_cancellable s :
  includes ["pending"; "confirmed"] s = true ↔ s = "pending" ∨ s = "confirmed".
Proof.
  unfold includes; simpl. rewrite !orb_true_iff, !String.eqb_eq.
  intuition congruence.
Qed.

Lemma preSave_status now os o : Order.status (Order.preSave now os o) = Order.status o.
Proof. unfold Order.preSave. by destruct (Order.orderNumber o). Qed.

Lemma preSave_statusHistory now os o :
  Order.statusHistory (Order.preSave now os o) = Order.statusHistory o.
Proof. unfold Order.preSave. by destruct (Order.orderNumber o). Qed.

Lemma preSave_items now os o : Order.items (Order.preSave now os o) = Order.items o.
Proof. unfold Order.preSave. by destruct (Order.orderNumber o). Qed.

Lemma preSave_payment now os o : Order.payment (Order.preSave now os o) = Order.payment o.
Proof. unfold Order.preSave. by destruct (Order.orderNumber o). Qed.

(** What a successful cancellation returns and leaves behind. *)
Lemma cancelOrder_success db user id reason now order :
  orders db !! id = Some order →
  Order.user order = uid user →
  Order.status order = "pending" ∨ Order.status order = "confirmed" →
  let order' :=
    Order.preSave now (orders db)
      (Order.push_history (Order.set_status order "cancelled")
         {| Order.entry_status := "cancelled";
            Order.message := or_default reason "Cancelled by customer";
            Order.timestamp := now |}) in
  Orders.cancelOrder db user id reason now
  = (Ok order',
     set_products (set_orders db (<[id := order']> (orders db)))
       (Orders.adjustStock 1 (Order.items order) (products db))).
Proof.
  intros Ho Hu Hs. apply includes_cancellable in Hs.
  unfold Orders.cancelOrder. rewrite Ho, Hu, N.eqb_refl, Hs; simpl.
  by rewrite preSave_items.
Qed.

(** C2. Cancelling a pending or confirmed order as its owner succeeds:
    the stored order gets status cancelled, its history grows by one
    cancelled entry, and every stock counter goes up by exactly the
    quantity the order's line items hold of that product and size; in
    particular, a catalogue that had been reduced by these line items is
    back to what it was before. *)
Theorem cancelOrder_restores_stock db user id reason now order :
  orders db !! id = Some order →
  Order.user order = uid user →
  Order.status order = "pending" ∨ Order.status order = "confirmed" →
  ∃ order' db',
    Orders.cancelOrder db user id reason now = (Ok order', db')
    ∧ orders db' !! id = Some order'
    ∧ Order.status order' = "cancelled"
    ∧ Order.statusHistory order'
      = (Order.statusHistory order
         ++ [ {| Order.entry_status := "cancelled";
                 Order.message := or_default reason "Cancelled by customer";
                 Order.timestamp := now |} ])%list
    ∧ Order.items order' = Order.items order
    ∧ (∀ pid v,
         Product.stockOf (products db') pid v
         = (fun n => n + orderedQuantity (Order.items order) pid v)
           <$> Product.stockOf (products db) pid v)
    ∧ (∀ ps0, products db = Orders.adjustStock (-1) (Order.items order) ps0 →
              products db' = ps0).
Proof.
  intros Ho Hu Hs. eexists _, _. split; [by apply cancelOrder_success|].
  simpl. rewrite lookup_insert_eq, preSave_status, preSave_statusHistory, preSave_items.
  simpl. repeat split.
  - intros pid v. rewrite stockOf_adjustStock.
    destruct (Product.stockOf _ _ _); simpl; [|done]. f_equal. lia.
  - intros ps0 ->. apply adjustStock_restore.
Qed.

(** C3. Cancelling an order whose status is neither pending nor
    confirmed fails and changes nothing: the database, hence the order's
    status and history and every stock counter, is as before; for the
    owner of the order the failure is the invalid-transition one. *)
Theorem cancelOrder_rejected db user id reason now order :
  orders db !! id = Some order →
  Order.status order ≠ "pending" →
  Order.status order ≠ "confirmed" →
  let r := Orders.cancelOrder db user id reason now in
  (∃ e, fst r = Err e)
  ∧ (Order.user order = uid user → fst r = Err (CannotCancel (Order.status order)))
  ∧ snd r = db
  ∧ orders (snd r) !! id = Some order
  ∧ (∀ pid v, Product.stockOf (products (snd r)) pid v
              = Product.stockOf (products db) pid v).
Proof.
  intros Ho Hp Hc. unfold Orders.cancelOrder. rewrite Ho.
  assert (includes ["pending"; "confirmed"] (Order.status order) = false) as Hi.
  { apply not_true_is_false. rewrite includes_cancellable. intuition. }
  rewrite Hi.
  destruct (N.eqb (Order.user order) (uid user)) eqn:E; simpl.
  - repeat split; eauto.
  - repeat split; eauto. intros Hu. rewrite Hu, N.eqb_refl in E. done.
Qed.

(** What a successful placement leaves behind. *)
Lemma placeOrder_success db user req now id order db' :
  Orders.placeOrder db user req now = (Ok (id, order), db') →
  orders db !! id = None
  ∧ orders db' = <[id := order]> (orders db)
  ∧ Order.user order = uid user
  ∧ Order.status order = "pending"
  ∧ products db' = Orders.adjustStock (-1) (Order.items order) (products db).
Proof.
  unfold Orders.placeOrder.
  destruct (negb (Orders.validationResult req)); [done|].
  destruct (Orders.verifyItems _ _ _ _) as [[s ois]|]; [|done].
  destruct (negb (Order.validate _)); [done|].
  intros [= <- <- <-]. simpl. repeat split.
  apply not_elem_of_dom, is_fresh.
Qed.

(** Placing an order and cancelling it gives back the catalogue. *)
Lemma place_then_cancel db user req now id order db1 reason now' :
  Orders.placeOrder db user req now = (Ok (id, order), db1) →
  ∃ order' db2,
    Orders.cancelOrder db1 user id reason now' = (Ok order', db2)
    ∧ Order.status order' = "cancelled"
    ∧ products db2 = products db.
Proof.
  intros (_ & Hos & Hu & Hs & Hps)%placeOrder_success.
  assert (orders db1 !! id = Some order) as Ho.
  { rewrite Hos. apply lookup_insert_eq. }
  eexists _, _. split.
  - apply (cancelOrder_success db1 user id reason now' order Ho Hu). by left.
  - simpl. rewrite preSave_status, Hps. split; [done|]. apply adjustStock_restore.
Qed.

(** The sample databases are what the handlers produce. *)
Example placeOrder_smallCart :
  Orders.placeOrder Sample.db0 Sample.customer
    (Sample.request Sample.smallCart None) 1000
  = (Ok (0%N, Sample.order1), Sample.db1).
Proof. vm_compute. reflexivity. Qed.

Example updateStatus_shipped :
  Orders.updateStatus Sample.db1 Sample.admin 0 (Sample.statusReq "shipped") 2000
  = (Ok Sample.shipped1, Sample.db2).
Proof. vm_compute. reflexivity. Qed.

Lemma cancelOrder_restores_stock_witness :
  ∃ order' db',
    Orders.cancelOrder Sample.db1 Sample.customer 0 None 3000 = (Ok order', db')
    ∧ orders db' !! 0%N = Some order'
    ∧ Order.status order' = "cancelled"
    ∧ Order.statusHistory order'
      = (Order.statusHistory Sample.order1
         ++ [ {| Order.entry_status := "cancelled";
                 Order.message := or_default None "Cancelled by customer";
                 Order.timestamp := 3000 |} ])%list
    ∧ Order.items order' = Order.items Sample.order1
    ∧ (∀ pid v,
         Product.stockOf (products db') pid v
         = (fun n => n + orderedQuantity (Order.items Sample.order1) pid v)
           <$> Product.stockOf (products Sample.db1) pid v)
    ∧ (∀ ps0, products Sample.db1
              = Orders.adjustStock (-1) (Order.items Sample.order1) ps0 →
              products db' = ps0).
Proof.
  apply (cancelOrder_restores_stock Sample.db1 Sample.customer 0 None 3000
           Sample.order1).
  - reflexivity.
  - reflexivity.
  - left. reflexivity.
Defined.

Lemma cancelOrder_rejected_witness :
  let r := Orders.cancelOrder Sample.db2 Sample.customer 0 None 3000 in
  (∃ e, fst r = Err e)
  ∧ (Order.user Sample.shipped1 = uid Sample.customer →
     fst r = Err (CannotCancel (Order.status Sample.shipped1)))
  ∧ snd r = Sample.db2
  ∧ orders (snd r) !! 0%N = Some Sample.shipped1
  ∧ (∀ pid v, Product.stockOf (products (snd r)) pid v
              = Product.stockOf (products Sample.db2) pid v).
Proof.
  apply (cancelOrder_rejected Sample.db2 Sample.customer 0 None 3000
           Sample.shipped1).
  - reflexivity.
  - simpl. discriminate.
  - simpl. discriminate.
Defined.

(** Placing the sample cart and cancelling it brings every counter back. *)
Example place_then_cancel_restores :
  products (snd (Orders.cancelOrder Sample.db1 Sample.customer 0 None 3000))
  = products Sample.db0.
Proof. vm_compute. reflexivity. Qed.

(** ** Status transitions and the stock counters *)


(** The admin cancelling the sample order leaves the stock reduced. *)
Example admin_cancel_keeps_stock :
  let r := Orders.updateStatus Sample.db1 Sample.admin 0
             (Sample.statusReq "cancelled") 3000 in
  (Order.status <$> orders (snd r) !! 0%N) = Some "cancelled"
  ∧ Product.stockOf (products (snd r)) 2 "3ml" = Some 58
  ∧ Product.stockOf (products Sample.db0) 2 "3ml" = Some 60.
Proof. vm_compute. repeat split. Qed.

(** ** The paid timestamp *)

(** C7, as the handler has it. For an admin, a valid target status and
    an existing order the status update succeeds and stores the order it
    returns; when the requested status is delivered the paid timestamp
    of that order is the time of the update, whether or not one was set
    before; for any other status it keeps the value it had. *)
Theorem updateStatus_paidAt db user id req now order :
  orders db !! id = Some order →
  role user = "admin" →
  includes Orders.validStatuses (Orders.status req) = true →
  ∃ order',
    Orders.updateStatus db user id req now
    = (Ok order', set_orders db (<[id := order']> (orders db)))
    ∧ Order.status order' = Orders.status req
    ∧ (Orders.status req = "delivered" →
       Order.paidAt (Order.payment order') = Some now)
    ∧ (Orders.status req ≠ "delivered" →
       Order.paidAt (Order.payment order') = Order.paidAt (Order.payment order)).
Proof.
  intros Ho Hadmin Hvalid. unfold Orders.updateStatus.
  rewrite Hadmin, Hvalid, Ho; simpl.
  eexists. split; [reflexivity|].
  rewrite preSave_status, preSave_payment.
  destruct (String.eqb (Orders.status req) "delivered") eqn:E;
    destruct (Orders.tracking req); simpl; (split; [done|]); split;
    try done; intros Hd; try (by rewrite Hd in E);
    by apply String.eqb_eq in E.
Qed.

Lemma updateStatus_paidAt_witness :
  ∃ order',
    Orders.updateStatus Sample.dbPaid Sample.admin 0
      (Sample.statusReq "delivered") 2000
    = (Ok order', set_orders Sample.dbPaid (<[0%N := order']> (orders Sample.dbPaid)))
    ∧ Order.status order' = Orders.status (Sample.statusReq "delivered")
    ∧ (Orders.status (Sample.statusReq "delivered") = "delivered" →
       Order.paidAt (Order.payment order') = Some 2000)
    ∧ (Orders.status (Sample.statusReq "delivered") ≠ "delivered" →
       Order.paidAt (Order.payment order')
       = Order.paidAt (Order.payment Sample.paid1)).
Proof.
  apply (updateStatus_paidAt Sample.dbPaid Sample.admin 0
           (Sample.statusReq "delivered") 2000 Sample.paid1).
  - reflexivity.
  - reflexivity.
  - reflexivity.
Defined.

(** The order was paid at 1500; marking it delivered at 2000 replaces
    that timestamp. *)
Lemma updateStatus_delivered_overwrites_paidAt :
  Order.paidAt (Order.payment Sample.paid1) = Some 1500
  ∧ ∃ order',
      fst (Orders.updateStatus Sample.dbPaid Sample.admin 0
             (Sample.statusReq "delivered") 2000) = Ok order'
      ∧ Order.paidAt (Order.payment order') = Some 2000
      ∧ Order.paidAt (Order.payment order')
        ≠ Order.paidAt (Order.payment Sample.paid1).
Proof.
  split; [reflexivity|].
  eexists. split; [vm_compute; reflexivity|].
  split; [reflexivity|]. simpl. discriminate.
Qed.

(** ** Pricing *)

(** Rounding to two decimals: a multiple of 1/100 within half a cent. *)
Lemma round2_spec (x : Q) :
  (∃ k : Z, round2 x == inject_Z k / 100)%Q
  ∧ (x - (1 # 200) < round2 x)%Q ∧ (round2 x <= x + (1 # 200))%Q.
Proof.
  split; [by eexists|].
  unfold round2, Math_round, Qdiv. change (/ 100)%Q with (1 # 100)%Q.
  pose proof (Qfloor_le (x * 100 + (1 # 2))) as Hle.
  pose proof (Qlt_floor (x * 100 + (1 # 2))) as Hlt.
  rewrite inject_Z_plus in Hlt. change (inject_Z 1) with 1%Q in Hlt.
  split; lra.
Qed.

Lemma Math_round_nonneg (x : Q) : (0 <= x)%Q → 0 <= Math_round x.
Proof.
  intros Hx. unfold Math_round.
  rewrite <- (Qfloor_Z 0). apply Qfloor_resp_le.
  change (inject_Z 0) with 0%Q. lra.
Qed.

Lemma Math_round_le (x : Q) : (inject_Z (Math_round x) <= x + (1 # 2))%Q.
Proof. apply Qfloor_le. Qed.

Lemma inject_Z_nonneg k : 0 <= k → (0 <= inject_Z k)%Q.
Proof. intros H. change 0%Q with (inject_Z 0). by rewrite <- Zle_Qle. Qed.

Lemma round2_nonneg (x : Q) : (0 <= x)%Q → (0 <= round2 x)%Q.
Proof.
  intros Hx. unfold round2.
  assert (0 <= inject_Z (Math_round (x * 100)))%Q as H.
  { apply inject_Z_nonneg, Math_round_nonneg. lra. }
  unfold Qdiv. change (/ 100)%Q with (1 # 100)%Q. lra.
Qed.

Lemma round2_tenth_le (s : Q) : (0 <= s)%Q → (round2 (s * (10 # 100)) <= s)%Q.
Proof.
  intros Hs. unfold round2, Qdiv. change (/ 100)%Q with (1 # 100)%Q.
  pose proof (Math_round_le (s * (10 # 100) * 100)) as Hle.
  destruct (Z_le_gt_dec (Math_round (s * (10 # 100) * 100)) 0) as [Hk|Hk].
  - assert (inject_Z (Math_round (s * (10 # 100) * 100)) <= 0)%Q.
    { change 0%Q with (inject_Z 0). by rewrite <- Zle_Qle. }
    lra.
  - assert (1 <= inject_Z (Math_round (s * (10 # 100) * 100)))%Q.
    { change 1%Q with (inject_Z 1). rewrite <- Zle_Qle. lia. }
    lra.
Qed.

Lemma verifyItems_ok ps its subtotal orderItems s ois :
  Orders.verifyItems ps its subtotal orderItems = Ok (s, ois) →
  ∃ new, ois = (orderItems ++ new)%list
    ∧ (s == subtotal + sumLines new)%Q
    ∧ Forall2 (snapshotOf ps) its new.
Proof.
  revert subtotal orderItems.
  induction its as [|item its IH]; intros subtotal orderItems; simpl.
  - intros [= <- <-]. exists []. rewrite app_nil_r. simpl.
    repeat split; [lra|constructor].
  - destruct (ps !! Orders.product item) as [p|] eqn:Hp; [|done].
    destruct (Product.isActive p) eqn:Hact; simpl; [|done].
    destruct (Product.findSize p (Orders.size item)) as [sz|] eqn:Hsz; [|done].
    destruct (Product.stock sz <? Orders.quantity item) eqn:Hlt; [done|].
    intros H. apply IH in H as (new & -> & Hs & Hall).
    eexists (_ :: new). rewrite <- app_assoc. split; [reflexivity|].
    split.
    + rewrite Hs. simpl. unfold lineTotal; simpl. lra.
    + constructor; [|done]. exists p, sz. apply Z.ltb_ge in Hlt. done.
Qed.

Lemma sumLines_nonneg its :
  Forall (fun it => (0 <= Order.price it)%Q ∧ 0 <= Order.quantity it) its →
  (0 <= sumLines its)%Q.
Proof.
  induction 1 as [|it its [Hp Hq] _ IH]; simpl; [lra|].
  assert (0 <= lineTotal it)%Q; [|lra].
  unfold lineTotal. apply Qmult_le_0_compat; [done|].
  by apply inject_Z_nonneg.
Qed.

Lemma snapshot_price_nonneg ps its new :
  pricesNonNegative ps → Forall2 (snapshotOf ps) its new →
  Forall (fun it => (0 <= Order.price it)%Q) new.
Proof.
  intros Hps. induction 1 as [|item it its new (p & sz & Hp & _ & Hsz & _ & ->) _ IH];
    constructor; [|done].
  simpl. apply (Hps _ _ _ Hp). by apply find_some in Hsz as [? _].
Qed.




(** The scenarios of the specification. *)
Example pricing_subtotal_80 :
  let pr := Orders.calculateTotals (30 * 2 + 20 * 1) None in
  (Order.shipping pr == 9.99)%Q ∧ (Order.tax pr == 4)%Q
  ∧ (Order.total pr == 93.99)%Q.
Proof. vm_compute. repeat split. Qed.

Example pricing_subtotal_150 :
  let pr := Orders.calculateTotals 150 None in
  (Order.shipping pr == 0)%Q ∧ (Order.tax pr == 7.5)%Q
  ∧ (Order.total pr == 157.5)%Q.
Proof. vm_compute. repeat split. Qed.

Example pricing_welcome10 :
  let pr := Orders.calculateTotals 100 (Some "WELCOME10") in
  (Order.discount pr == 10)%Q
  ∧ (Order.total pr == 100 + Order.shipping pr + Order.tax pr - 10)%Q.
Proof. vm_compute. repeat split. Qed.

(** ** Coupons *)

(** Any two non-empty coupon codes get the same discount. *)
Lemma discountFor_any_code subtotal c :
  truthy (Some c) = true →
  Orders.discountFor subtotal (Some c) = round2 (subtotal * (10 # 100)).
Proof. unfold Orders.discountFor. by intros ->. Qed.

(** C5. The order handler does not consult the coupon table of the
    coupon check. A code the check rejects is accepted at placement and
    gets 10% of the subtotal; a code the table lists at 20% gets 10%
    as well. *)
Theorem placeOrder_ignores_coupon_table :
  Cart.checkCoupon (Some "BOGUS") = Err InvalidCoupon
  ∧ (∃ id order db',
       Orders.placeOrder Sample.db0 Sample.customer
         (Sample.request Sample.smallCart (Some "BOGUS")) 1000
       = (Ok (id, order), db')
       ∧ (Order.subtotal (Order.pricing order) == 120)%Q
       ∧ (Order.discount (Order.pricing order) == 12)%Q
       ∧ Order.coupon order
         = Some {| Order.code := "BOGUS";
                   Order.coupon_discount := Order.discount (Order.pricing order) |})
  ∧ Cart.checkCoupon (Some "attar20")
    = Ok ("ATTAR20", {| Cart.discount := 20; Cart.type := Cart.percentage;
                        Cart.description := "20% discount" |})
  ∧ (∃ id order db',
       Orders.placeOrder Sample.db0 Sample.customer
         (Sample.request Sample.smallCart (Some "ATTAR20")) 1000
       = (Ok (id, order), db')
       ∧ (Order.subtotal (Order.pricing order) == 120)%Q
       ∧ (Order.discount (Order.pricing order) == 12)%Q).
Proof.
  split; [reflexivity|]. split.
  - eexists _, _, _. split; [vm_compute; reflexivity|]. vm_compute. repeat split.
  - split; [reflexivity|].
    eexists _, _, _. split; [vm_compute; reflexivity|]. vm_compute. repeat split.
Qed.

(** ** Review aggregation *)

Lemma In_matching rs pid r :
  In r (Review.matching rs pid)
  ↔ (∃ k, rs !! k = Some r) ∧ Review.product r = pid ∧ Review.isApproved r = true.
Proof.
  unfold Review.matching, Review.matches.
  rewrite filter_In, andb_true_iff, N.eqb_eq, <- list_elem_of_In, list_elem_of_fmap.
  split.
  - intros [([k r'] & -> & Hk) H]. apply elem_of_map_to_list in Hk. eauto.
  - intros [[k Hk] H]. split; [|done]. exists (k, r). split; [done|].
    by apply elem_of_map_to_list.
Qed.

Lemma updateProductRating_lookup rs pid ps :
  Review.updateProductRating rs pid ps
  = alter (fun p => Product.set_ratings p (recomputed (Review.matching rs pid))) pid ps.
Proof.
  unfold Review.updateProductRating, Review.aggregate, recomputed, meanRating.
  apply map_eq; intros k. rewrite lookup_alter.
  destruct (ps !! pid) as [p|] eqn:Hp.
  - rewrite lookup_insert. case_decide; [|done]. simpl.
    by destruct (Review.matching rs pid).
  - case_decide; [|done]. subst. by rewrite Hp.
Qed.


(** Ratings 5, 4 and 4 are approved, the 1 is not: count 3, average 4.3. *)
Example updateProductRating_lotus :
  ∃ r,
    (Product.ratings <$>
       Review.updateProductRating Sample.someReviews 2 Sample.catalogue !! 2%N)
    = Some r
    ∧ Product.count r = 3 ∧ (Product.average r == 4.3)%Q.
Proof. eexists. split; [vm_compute; reflexivity|]. vm_compute. repeat split. Qed.

(** ** Helpful votes *)

Lemma existsb_voted (u : N) (l : list N) :
  existsb (N.eqb u) l = true ↔ u ∈ (list_to_set l : gset N).
Proof.
  rewrite existsb_exists, elem_of_list_to_set, list_elem_of_In.
  split.
  - intros (x & Hx & ->%N.eqb_eq). done.
  - intros H. exists u. by rewrite N.eqb_refl.
Qed.

Lemma voterSet_pull (u : N) (l : list N) :
  (list_to_set (List.filter (fun v => negb (N.eqb v u)) l) : gset N)
  = list_to_set l ∖ {[u]}.
Proof.
  apply set_eq; intros x.
  rewrite elem_of_difference, !elem_of_list_to_set, !list_elem_of_In, filter_In.
  rewrite negb_true_iff, N.eqb_neq, elem_of_singleton. tauto.
Qed.

Lemma voterSet_push (u : N) (l : list N) :
  (list_to_set (l ++ [u]) : gset N) = list_to_set l ∪ {[u]}.
Proof. rewrite list_to_set_app_L. simpl. set_solver. Qed.

Lemma voterSet_toggled u r :
  voterSet (toggled u r)
  = if decide (u ∈ voterSet r) then voterSet r ∖ {[u]} else voterSet r ∪ {[u]}.
Proof.
  unfold toggled, voterSet.
  destruct (existsb _ _) eqn:E; simpl.
  - rewrite voterSet_pull. apply existsb_voted in E. by rewrite decide_True.
  - rewrite voterSet_push. rewrite decide_False; [done|].
    rewrite <- existsb_voted. congruence.
Qed.

Lemma helpfulVotes_toggled u r :
  Review.helpfulVotes (toggled u r)
  = if decide (u ∈ voterSet r)
    then Review.helpfulVotes r - 1 else Review.helpfulVotes r + 1.
Proof.
  unfold toggled, voterSet.
  destruct (existsb _ _) eqn:E; simpl.
  - apply existsb_voted in E. by rewrite decide_True.
  - rewrite decide_False; [done|]. rewrite <- existsb_voted. congruence.
Qed.

(** An array without repeated voters stays so, and its length moves
    with the counter. *)
Lemma toggled_NoDup u r :
  NoDup (Review.votedBy r) →
  NoDup (Review.votedBy (toggled u r))
  ∧ (Review.helpfulVotes r = Z.of_nat (length (Review.votedBy r)) →
     Review.helpfulVotes (toggled u r)
     = Z.of_nat (length (Review.votedBy (toggled u r)))).
Proof.
  intros Hnd. unfold toggled.
  destruct (existsb (N.eqb u) (Review.votedBy r)) eqn:E; simpl.
  - split.
    + apply NoDup_ListNoDup, List.NoDup_filter, NoDup_ListNoDup, Hnd.
    + intros ->.
      apply existsb_exists in E as (x & Hx & ->%N.eqb_eq).
      induction Hnd as [|y l Hy Hnd IH]; [done|]. simpl.
      destruct Hx as [->|Hx].
      * rewrite N.eqb_refl; simpl.
        rewrite List.forallb_filter_id; [lia|].
        apply forallb_forall. intros z Hz. apply negb_true_iff, N.eqb_neq.
        intros ->. apply Hy, list_elem_of_In, Hz.
      * assert (y ≠ x) as Hne.
        { intros ->. apply Hy, list_elem_of_In, Hx. }
        apply N.eqb_neq in Hne. rewrite Hne; simpl.
        specialize (IH Hx). lia.
  - split.
    + apply NoDup_app. split; [done|]. split; [|apply NoDup_singleton].
      intros x Hx ->%list_elem_of_singleton.
      apply not_true_iff_false in E. apply E, existsb_exists.
      exists u. split; [by apply list_elem_of_In|apply N.eqb_refl].
    + intros ->. rewrite length_app. simpl. lia.
Qed.

Lemma toggleHelpful_stores db user id review :
  reviews db !! id = Some review →
  let r' := toggled (uid user) review in
  let rs := <[id := r']> (reviews db) in
  Reviews.toggleHelpful db user id
  = (Ok (Review.helpfulVotes r',
         negb (existsb (N.eqb (uid user)) (Review.votedBy review))),
     set_products (set_reviews db rs)
       (Review.updateProductRating rs (Review.product r') (products db))).
Proof.
  intros Hr. unfold Reviews.toggleHelpful, toggled. rewrite Hr.
  by destruct (existsb _ _).
Qed.

(** C9. On a review whose counter equals the size of its voter set, a
    toggle flips the membership of the user in the voter set and leaves
    the counter equal to the size of the new set; a second toggle by the
    same user brings the voter set and the counter back to what they
    were. *)
Theorem toggleHelpful_counter db user id review :
  reviews db !! id = Some review →
  Review.helpfulVotes review = Z.of_nat (size (voterSet review)) →
  ∃ r1 voted1 db1 r2 voted2 db2,
    Reviews.toggleHelpful db user id = (Ok (Review.helpfulVotes r1, voted1), db1)
    ∧ reviews db1 !! id = Some r1
    ∧ voterSet r1
      = (if decide (uid user ∈ voterSet review)
         then voterSet review ∖ {[uid user]}
         else voterSet review ∪ {[uid user]})
    ∧ Review.helpfulVotes r1 = Z.of_nat (size (voterSet r1))
    ∧ Reviews.toggleHelpful db1 user id = (Ok (Review.helpfulVotes r2, voted2), db2)
    ∧ reviews db2 !! id = Some r2
    ∧ voterSet r2 = voterSet review
    ∧ Review.helpfulVotes r2 = Review.helpfulVotes review.
Proof.
  intros Hr Hcount.
  pose proof (toggleHelpful_stores db user id review Hr) as H1.
  cbv zeta in H1.
  match type of H1 with _ = (_, ?d) => set (db1 := d) in * end.
  assert (reviews db1 !! id = Some (toggled (uid user) review)) as Hr1.
  { subst db1. simpl. apply lookup_insert_eq. }
  pose proof (toggleHelpful_stores db1 user id _ Hr1) as H2.
  cbv zeta in H2.
  match type of H2 with _ = (_, ?d) => set (db2 := d) in * end.
  assert (reviews db2 !! id
          = Some (toggled (uid user) (toggled (uid user) review))) as Hr2.
  { subst db2. simpl. apply lookup_insert_eq. }
  eexists (toggled (uid user) review), _, db1,
          (toggled (uid user) (toggled (uid user) review)), _, db2.
  split; [exact H1|]. split; [done|]. split; [apply voterSet_toggled|].
  split.
  { rewrite helpfulVotes_toggled, voterSet_toggled, Hcount.
    case_decide as Hin.
    - rewrite size_difference by set_solver. rewrite size_singleton.
      assert (size (voterSet review) ≠ 0%nat); [|lia].
      apply size_non_empty_iff. set_solver.
    - rewrite size_union by set_solver. rewrite size_singleton. lia. }
  split; [exact H2|]. split; [done|]. split.
  - rewrite !voterSet_toggled.
    destruct (decide (uid user ∈ voterSet review)) as [Hin|Hin].
    + rewrite decide_False by set_solver.
      apply set_eq; intros x. destruct (decide (x = uid user)); set_solver.
    + rewrite decide_True by set_solver. set_solver.
  - rewrite !helpfulVotes_toggled, voterSet_toggled.
    destruct (decide (uid user ∈ voterSet review)) as [Hin|Hin].
    + rewrite decide_False by set_solver. lia.
    + rewrite decide_True by set_solver. lia.
Qed.

Lemma toggleHelpful_counter_witness :
  ∃ r1 voted1 db1 r2 voted2 db2,
    Reviews.toggleHelpful Sample.dbReviews Sample.customer 0
    = (Ok (Review.helpfulVotes r1, voted1), db1)
    ∧ reviews db1 !! 0%N = Some r1
    ∧ voterSet r1
      = (if decide (uid Sample.customer ∈ voterSet (Sample.review 7 5 true 1 [8%N]))
         then voterSet (Sample.review 7 5 true 1 [8%N]) ∖ {[uid Sample.customer]}
         else voterSet (Sample.review 7 5 true 1 [8%N]) ∪ {[uid Sample.customer]})
    ∧ Review.helpfulVotes r1 = Z.of_nat (size (voterSet r1))
    ∧ Reviews.toggleHelpful db1 Sample.customer 0
      = (Ok (Review.helpfulVotes r2, voted2), db2)
    ∧ reviews db2 !! 0%N = Some r2
    ∧ voterSet r2 = voterSet (Sample.review 7 5 true 1 [8%N])
    ∧ Review.helpfulVotes r2
      = Review.helpfulVotes (Sample.review 7 5 true 1 [8%N]).
Proof.
  apply (toggleHelpful_counter Sample.dbReviews Sample.customer 0
           (Sample.review 7 5 true 1 [8%N])).
  - reflexivity.
  - vm_compute. reflexivity.
Defined.

(** The customer votes (two voters, counter 2) and takes the vote back. *)
Example toggleHelpful_twice :
  let r1 := Reviews.toggleHelpful Sample.dbReviews Sample.customer 0 in
  let r2 := Reviews.toggleHelpful (snd r1) Sample.customer 0 in
  fst r1 = Ok (2, true) ∧ fst r2 = Ok (1, false)
  ∧ (Review.votedBy <$> reviews (snd r1) !! 0%N) = Some [8%N; 7%N]
  ∧ (Review.votedBy <$> reviews (snd r2) !! 0%N) = Some [8%N].
Proof. vm_compute. repeat split. Qed.

(** ** Cart validation *)

Lemma validateItems_not_stock ps its subtotal vs nm :
  Cart.validateItems ps its subtotal vs ≠ Err (InsufficientStock nm).
Proof.
  revert subtotal vs. induction its as [|item its IH]; intros subtotal vs; simpl; [done|].
  destruct (ps !! Cart.productId item) as [p|]; [|done].
  destruct (negb (Product.isActive p)); [done|].
  destruct (Product.findSize p (Cart.size item)); [apply IH|done].
Qed.

Lemma validateItems_resolved ps its subtotal vs :
  Forall (fun it => resolves ps (Cart.productId it) (Cart.size it)) its →
  ∃ s new,
    Cart.validateItems ps its subtotal vs = Ok (s, (vs ++ new)%list)
    ∧ (s == subtotal + sumValidated new)%Q
    ∧ Forall2 (validatedAs ps) its new.
Proof.
  intros Hall. revert subtotal vs.
  induction Hall as [|item its (p & sz & Hp & Hact & Hsz) _ IH];
    intros subtotal vs; simpl.
  - exists subtotal, []. rewrite app_nil_r. repeat split; [simpl; lra|constructor].
  - rewrite Hp, Hact; simpl. rewrite Hsz.
    edestruct IH as (s & new & -> & Hs & Hnew).
    eexists s, (_ :: new). rewrite <- app_assoc. split; [reflexivity|].
    split.
    + rewrite Hs. simpl. lra.
    + constructor; [|done]. exists p, sz. simpl. done.
Qed.

(** C10. Cart validation never answers with the insufficient-stock
    error. When every item names an active product and one of its sizes
    it succeeds: each returned entry carries the smaller of the
    requested quantity and the stock, while its line subtotal, and with
    it the cart subtotal, is priced on the requested quantity; for an
    item asking for more than the stock the returned quantity is the
    stock and, at a positive price, the line subtotal is above the price
    of the returned quantity. *)
Theorem cart_validate_caps_quantity_only db its :
  (∀ nm, Cart.validate db its ≠ Err (InsufficientStock nm))
  ∧ (Forall (fun it => resolves (products db) (Cart.productId it) (Cart.size it)) its →
     ∃ vs pricing,
       Cart.validate db its = Ok (vs, pricing)
       ∧ Forall2
           (fun item v =>
              validatedAs (products db) item v
              ∧ (Cart.v_stock v < Cart.quantity item →
                 Cart.v_quantity v = Cart.v_stock v
                 ∧ ((0 < Cart.v_price v)%Q →
                    (Cart.v_price v * inject_Z (Cart.v_quantity v)
                     < Cart.v_subtotal v)%Q)))
           its vs
       ∧ (Cart.subtotal pricing == sumValidated vs)%Q
       ∧ Cart.total pricing
         = (Cart.subtotal pricing + Cart.shipping pricing + Cart.tax pricing)%Q).
Proof.
  split.
  - intros nm. unfold Cart.validate.
    destruct (Cart.validateItems _ _ _ _) as [[s vs]|e] eqn:E; [done|].
    intros [= ->]. by apply validateItems_not_stock in E.
  - intros Hall. unfold Cart.validate.
    destruct (validateItems_resolved _ _ 0%Q [] Hall) as (s & vs & -> & Hs & Hvs).
    simpl. eexists _, _. split; [reflexivity|]. simpl.
    split; [|split; [rewrite Hs; lra|done]].
    eapply Forall2_impl; [exact Hvs|].
    intros item v Hv. split; [done|].
    destruct Hv as (p & sz & _ & _ & Hprice & Hstock & Hq & Hsub).
    rewrite Hq, Hstock, Hprice, Hsub. intros Hlt. split; [lia|].
    intros Hpos. rewrite Z.min_r by lia.
    apply Qmult_lt_l; [done|]. by rewrite <- Zlt_Qlt.
Qed.

Lemma cart_validate_caps_quantity_only_witness :
  ∃ vs pricing,
    Cart.validate Sample.db0 Sample.greedyCartReq = Ok (vs, pricing)
    ∧ Forall2
        (fun item v =>
           validatedAs (products Sample.db0) item v
           ∧ (Cart.v_stock v < Cart.quantity item →
              Cart.v_quantity v = Cart.v_stock v
              ∧ ((0 < Cart.v_price v)%Q →
                 (Cart.v_price v * inject_Z (Cart.v_quantity v)
                  < Cart.v_subtotal v)%Q)))
        Sample.greedyCartReq vs
    ∧ (Cart.subtotal pricing == sumValidated vs)%Q
    ∧ Cart.total pricing
      = (Cart.subtotal pricing + Cart.shipping pricing + Cart.tax pricing)%Q.
Proof.
  apply (proj2 (cart_validate_caps_quantity_only Sample.db0 Sample.greedyCartReq)).
  constructor; [|constructor].
  exists Sample.oud, (Product.mkSize "12ml" 285 10 (Some "RHO-12")).
  split; [reflexivity|]. split; reflexivity.
Defined.

(** Eleven vials asked, ten returned, eleven priced. *)
Example cart_validate_greedy :
  ∃ v pricing,
    Cart.validate Sample.db0 Sample.greedyCartReq = Ok ([v], pricing)
    ∧ Cart.v_quantity v = 10
    ∧ (Cart.v_subtotal v == 285 * 11)%Q
    ∧ (Cart.subtotal pricing == 3135)%Q.
Proof. eexists _, _. split; [vm_compute; reflexivity|]. vm_compute. repeat split. Qed.

(** * Further properties *)

(** ** What the handlers do to the order collection *)

Lemma preSave_unfold now os o :
  Order.preSave now os o
  = match Order.orderNumber o with
    | Some _ => o
    | None => Order.set_orderNumber o (Some (now, S (size os)))
    end.
Proof. done. Qed.

Lemma orderKept_refl o : orderKept o o.
Proof. unfold orderKept. by split_and!. Qed.

Lemma orderKept_trans o1 o2 o3 : orderKept o1 o2 → orderKept o2 o3 → orderKept o1 o3.
Proof.
  intros (Hu & Hi & Ha & Hp & Hn & Hh) (Hu' & Hi' & Ha' & Hp' & Hn' & Hh').
  unfold orderKept. split_and!; try congruence; [auto|].
  by etrans.
Qed.

Lemma orderKept_preSave now os o o1 :
  orderKept o o1 → orderKept o (Order.preSave now os o1).
Proof.
  intros H. rewrite preSave_unfold.
  destruct (Order.orderNumber o1) eqn:E; [exact H|].
  destruct H as (Hu & Hi & Ha & Hp & Hn & Hh).
  unfold orderKept. split_and!; simpl; try done.
  intros n Hn'. apply Hn in Hn'. congruence.
Qed.

Lemma statusLogged_preSave now os o :
  statusLogged o → statusLogged (Order.preSave now os o).
Proof. unfold statusLogged. by rewrite preSave_status, preSave_statusHistory. Qed.

Lemma statusLogged_push o s e :
  Order.entry_status e = s →
  statusLogged (Order.push_history (Order.set_status o s) e).
Proof. intros <-. unfold statusLogged; simpl. by rewrite last_snoc. Qed.

Lemma orderKept_push o s e :
  orderKept o (Order.push_history (Order.set_status o s) e).
Proof. unfold orderKept. split_and!; simpl; try done. by apply prefix_app_r. Qed.

Lemma findByIntent_Some os intent id o :
  Payments.findByIntent os intent = Some (id, o) → os !! id = Some o.
Proof.
  unfold Payments.findByIntent. intros [Hin _]%find_some.
  by apply list_elem_of_In, elem_of_map_to_list in Hin.
Qed.

Lemma step_orders db db' :
  step db db' →
  orders db' = orders db
  ∨ ∃ id o', orders db' = <[id := o']> (orders db) ∧ written (orders db) id o'.
Proof.
  intros [user req now|user id reason now|user id req now|event now|id now
         |stripe gateway user id now|user id|user req|user id req|user id].
  - unfold Orders.placeOrder.
    destruct (negb (Orders.validationResult req)); [by left|].
    destruct (Orders.verifyItems _ _ _ _) as [[s ois]|]; [|by left].
    destruct (negb (Order.validate _)); [by left|].
    right. eexists _, _. split; [reflexivity|]. left.
    split; [apply not_elem_of_dom, is_fresh|].
    split; [by apply statusLogged_preSave|]. by eexists.
  - unfold Orders.cancelOrder.
    destruct (orders db !! id) as [o|] eqn:Ho; [|by left].
    destruct (negb (N.eqb _ _)); [by left|].
    destruct (negb (includes _ _)); [by left|].
    right. eexists _, _. split; [reflexivity|]. right. exists o.
    split; [done|]. split.
    + apply orderKept_preSave, orderKept_push.
    + intros _. by apply statusLogged_preSave, statusLogged_push.
  - unfold Orders.updateStatus.
    destruct (negb (String.eqb _ _)); [by left|].
    destruct (negb (includes _ _)); [by left|].
    destruct (orders db !! id) as [o|] eqn:Ho; [|by left].
    right. eexists _, _. split; [reflexivity|]. right. exists o.
    split; [done|]. split.
    + apply orderKept_preSave.
      destruct (Orders.tracking req), (String.eqb (Orders.status req) "delivered");
        unfold orderKept; split_and!; simpl; try done; by apply prefix_app_r.
    + intros _. apply statusLogged_preSave. unfold statusLogged.
      destruct (Orders.tracking req), (String.eqb (Orders.status req) "delivered");
        simpl; by rewrite last_snoc.
  - destruct event as [intent|intent|]; simpl; [| |by left].
    + destruct (Payments.findByIntent _ _) as [[id o]|] eqn:Hf; [|by left].
      apply findByIntent_Some in Hf.
      right. eexists _, _. split; [reflexivity|]. right. exists o.
      split; [done|]. split.
      * apply orderKept_preSave. unfold orderKept. split_and!; simpl; try done.
        by apply prefix_app_r.
      * intros _. apply statusLogged_preSave. unfold statusLogged; simpl.
        by rewrite last_snoc.
    + destruct (Payments.findByIntent _ _) as [[id o]|] eqn:Hf; [|by left].
      apply findByIntent_Some in Hf.
      right. eexists _, _. split; [reflexivity|]. right. exists o.
      split; [done|]. split.
      * apply orderKept_preSave. unfold orderKept. by split_and!.
      * intros H. by apply statusLogged_preSave.
  - unfold Payments.confirmCod.
    destruct (orders db !! id) as [o|] eqn:Ho; [|by left].
    destruct (negb (String.eqb _ _)); [by left|].
    right. eexists _, _. split; [reflexivity|]. right. exists o.
    split; [done|]. split.
    + apply orderKept_preSave, orderKept_push.
    + intros _. by apply statusLogged_preSave, statusLogged_push.
  - unfold PaymentIntents.createIntent.
    destruct (negb stripe); [by left|].
    destruct (orders db !! id) as [o|] eqn:Ho; [|by left].
    destruct (negb (N.eqb _ _)); [by left|].
    right. eexists _, _. split; [reflexivity|]. right. exists o.
    split; [done|]. split.
    + apply orderKept_preSave. unfold orderKept. by split_and!.
    + intros H. by apply statusLogged_preSave.
  - left. unfold Reviews.toggleHelpful. by destruct (reviews db !! id).
  - left. unfold ReviewWrites.createReview.
    destruct (negb (ReviewWrites.validationResult req)); [done|].
    destruct (ReviewWrites.findExisting _ _ _); [done|].
    by destruct (negb (ReviewWrites.validate _)).
  - left. unfold ReviewWrites.updateReview.
    destruct (reviews db !! id); [|done].
    destruct (negb (N.eqb _ _)); [done|].
    by destruct (negb (ReviewWrites.validate _)).
  - left. unfold ReviewWrites.deleteReview.
    destruct (reviews db !! id); [|done].
    by destruct (negb _ && negb _).
Qed.

Lemma ordersKept_refl os : ordersKept os os.
Proof. intros id o Ho. exists o. split; [done|apply orderKept_refl]. Qed.

Lemma ordersKept_trans os1 os2 os3 :
  ordersKept os1 os2 → ordersKept os2 os3 → ordersKept os1 os3.
Proof.
  intros H12 H23 id o Ho.
  destruct (H12 id o Ho) as (o2 & Ho2 & Hk2).
  destruct (H23 id o2 Ho2) as (o3 & Ho3 & Hk3).
  exists o3. split; [done|]. by eapply orderKept_trans.
Qed.

Lemma step_ordersKept db db' : step db db' → ordersKept (orders db) (orders db').
Proof.
  intros [->|(id & o' & -> & Hw)]%step_orders; [apply ordersKept_refl|].
  intros id' o Ho. destruct (decide (id = id')) as [->|Hne].
  - rewrite lookup_insert_eq. exists o'. split; [done|].
    destruct Hw as [[Hnone _]|(o0 & Ho0 & Hk & _)]; congruence.
  - rewrite lookup_insert_ne by done. exists o. split; [done|apply orderKept_refl].
Qed.

(** X1. Whatever requests are served, an order once stored
    stays stored with the same owner, line items, address and pricing;
    an order number once given stays, and the status history only grows
    at its end. *)
Theorem orders_are_kept db db' :
  rtc step db db' → ordersKept (orders db) (orders db').
Proof.
  induction 1 as [db|db1 db2 db3 Hstep _ IH]; [apply ordersKept_refl|].
  eapply ordersKept_trans; [by apply step_ordersKept|done].
Qed.

Lemma orders_are_kept_witness :
  ordersKept (orders Sample.db1)
    (orders (snd (Orders.updateStatus Sample.db1 Sample.admin 0
                    (Sample.statusReq "shipped") 2000))).
Proof.
  apply (orders_are_kept Sample.db1), rtc_once, step_updateStatus.
Defined.

(** X2. If the status of every stored order is the one
    its last history entry records, this is still so after any number
    of requests. *)
Theorem status_stays_logged db db' :
  map_Forall (fun _ o => statusLogged o) (orders db) →
  rtc step db db' →
  map_Forall (fun _ o => statusLogged o) (orders db').
Proof.
  intros Hall Hsteps. induction Hsteps as [db|db1 db2 db3 Hstep _ IH]; [done|].
  apply IH. clear IH.
  apply step_orders in Hstep as [->|(id & o' & -> & Hw)]; [done|].
  apply map_Forall_insert_2; [|done].
  destruct Hw as [(_ & Hl & _)|(o & Ho & _ & Hl)]; [done|].
  apply Hl. by apply (Hall id).
Qed.

Lemma status_stays_logged_witness :
  map_Forall (fun _ o => statusLogged o)
    (orders (snd (Orders.placeOrder Sample.db0 Sample.customer
                    (Sample.request Sample.smallCart None) 1000))).
Proof.
  apply (status_stays_logged Sample.db0).
  - apply map_Forall_empty.
  - apply rtc_once, step_placeOrder.
Defined.

Lemma numbered_insert_new os id o t :
  numbered os → os !! id = None →
  Order.orderNumber o = Some (t, S (size os)) →
  numbered (<[id := o]> os).
Proof.
  intros [Hrange Huniq] Hnone Hn.
  assert (sequenceOf o = Some (S (size os))) as Hseq.
  { unfold sequenceOf. by rewrite Hn. }
  split.
  - intros id' o' Ho'. rewrite map_size_insert_None by done.
    destruct (decide (id = id')) as [->|Hne].
    + rewrite lookup_insert_eq in Ho'. injection Ho' as <-.
      exists (S (size os)). split; [done|lia].
    + rewrite lookup_insert_ne in Ho' by done.
      destruct (Hrange _ _ Ho') as (k & Hk & Hle). exists k. split; [done|lia].
  - intros id1 id2 o1 o2 H1 H2 Heq.
    destruct (decide (id1 = id2)) as [|Hne]; [done|]. exfalso.
    destruct (decide (id = id1)) as [E1|Hne1], (decide (id = id2)) as [E2|Hne2].
    + congruence.
    + subst id1. rewrite lookup_insert_eq in H1. injection H1 as <-.
      rewrite lookup_insert_ne in H2 by done.
      destruct (Hrange _ _ H2) as (k & Hk & Hle).
      rewrite Hseq, Hk in Heq. injection Heq as <-. lia.
    + subst id2. rewrite lookup_insert_eq in H2. injection H2 as <-.
      rewrite lookup_insert_ne in H1 by done.
      destruct (Hrange _ _ H1) as (k & Hk & Hle).
      rewrite Hseq, Hk in Heq. injection Heq as ->. lia.
    + rewrite lookup_insert_ne in H1, H2 by done. apply Hne. by eapply Huniq.
Qed.

Lemma numbered_insert_kept os id o o' :
  numbered os → os !! id = Some o → orderKept o o' →
  numbered (<[id := o']> os).
Proof.
  intros [Hrange Huniq] Ho (_ & _ & _ & _ & Hn & _).
  assert (sequenceOf o' = sequenceOf o) as Hseq.
  { destruct (Hrange _ _ Ho) as (k & Hk & _). unfold sequenceOf in *.
    destruct (Order.orderNumber o) as [n|] eqn:E; [|done].
    by rewrite (Hn n). }
  assert (∀ i x, <[id := o']> os !! i = Some x →
                 ∃ y, os !! i = Some y ∧ sequenceOf x = sequenceOf y) as Hold.
  { intros i x Hx. destruct (decide (id = i)) as [->|Hne].
    - rewrite lookup_insert_eq in Hx. injection Hx as <-. eauto.
    - rewrite lookup_insert_ne in Hx by done. eauto. }
  split.
  - intros i x Hx. rewrite map_size_insert_Some by done.
    destruct (Hold _ _ Hx) as (y & Hy & ->). by eapply Hrange.
  - intros id1 id2 o1 o2 H1 H2 Heq.
    destruct (Hold _ _ H1) as (y1 & Hy1 & E1).
    destruct (Hold _ _ H2) as (y2 & Hy2 & E2).
    eapply Huniq; [done|done|congruence].
Qed.

(** X3. If every stored order has a number, the sequence
    parts of the numbers lie between 1 and the number of orders and are
    pairwise different, this is still so after any number of requests:
    a new order gets the next sequence number and no handler changes
    the number of an order. *)
Theorem order_numbers_stay_unique db db' :
  numbered (orders db) → rtc step db db' → numbered (orders db').
Proof.
  intros Hnum Hsteps. induction Hsteps as [db|db1 db2 db3 Hstep _ IH]; [done|].
  apply IH. clear IH.
  apply step_orders in Hstep as [->|(id & o' & -> & Hw)]; [done|].
  destruct Hw as [(Hnone & _ & t & Hn)|(o & Ho & Hk & _)].
  - by eapply numbered_insert_new.
  - by eapply numbered_insert_kept.
Qed.

Lemma order_numbers_stay_unique_witness :
  numbered
    (orders (snd (Orders.placeOrder
                    (snd (Orders.placeOrder Sample.db0 Sample.customer
                            (Sample.request Sample.smallCart None) 1000))
                    Sample.stranger
                    (Sample.request Sample.smallCart None) 1001))).
Proof.
  apply (order_numbers_stay_unique Sample.db0).
  - split.
    + intros id o Ho. simpl in Ho. rewrite lookup_empty in Ho. discriminate.
    + intros id1 id2 o1 o2 Ho. simpl in Ho. rewrite lookup_empty in Ho. discriminate.
  - eapply rtc_l; [apply step_placeOrder|]. apply rtc_once, step_placeOrder.
Defined.

(** Two sample orders get the sequence numbers 1 and 2. *)
Example order_numbers_sample :
  let db1 := snd (Orders.placeOrder Sample.db0 Sample.customer
                    (Sample.request Sample.smallCart None) 1000) in
  let db2 := snd (Orders.placeOrder db1 Sample.stranger
                    (Sample.request Sample.smallCart None) 1001) in
  (Order.orderNumber <$> orders db2 !! 0%N) = Some (Some (1000, 1%nat))
  ∧ (Order.orderNumber <$> orders db2 !! 1%N) = Some (Some (1001, 2%nat)).
Proof. vm_compute. split; reflexivity. Qed.

(** ** Placing and reading an order *)

Lemma placeOrder_unfold_success db user req now id order db' :
  Orders.placeOrder db user req now = (Ok (id, order), db') →
  ∃ s lines,
    Orders.validationResult req = true
    ∧ Orders.verifyItems (products db) (Orders.items req) 0%Q [] = Ok (s, lines)
    ∧ Order.validate
        (Orders.newOrder user req lines
           (Orders.calculateTotals s (Orders.coupon_code req)) now) = true
    ∧ id = fresh (dom (orders db))
    ∧ order
      = Order.preSave now (orders db)
          (Orders.newOrder user req lines
             (Orders.calculateTotals s (Orders.coupon_code req)) now)
    ∧ db' = set_products (set_orders db (<[id := order]> (orders db)))
              (Orders.adjustStock (-1) lines (products db)).
Proof.
  unfold Orders.placeOrder.
  destruct (negb (Orders.validationResult req)) eqn:Hvr; [done|].
  destruct (Orders.verifyItems _ _ _ _) as [[s lines]|]; [|done].
  destruct (negb (Order.validate _)) eqn:Hval; [done|].
  apply negb_false_iff in Hvr, Hval.
  intros [= <- <- <-]. by eexists _, _.
Qed.

Lemma placeOrder_success_eq db user req now s lines :
  Orders.validationResult req = true →
  Orders.verifyItems (products db) (Orders.items req) 0%Q [] = Ok (s, lines) →
  Order.validate
    (Orders.newOrder user req lines
       (Orders.calculateTotals s (Orders.coupon_code req)) now) = true →
  let order :=
    Order.preSave now (orders db)
      (Orders.newOrder user req lines
         (Orders.calculateTotals s (Orders.coupon_code req)) now) in
  Orders.placeOrder db user req now
  = (Ok (fresh (dom (orders db)), order),
     set_products
       (set_orders db (<[fresh (dom (orders db)) := order]> (orders db)))
       (Orders.adjustStock (-1) lines (products db))).
Proof.
  intros Hvr Hv Hval. unfold Orders.placeOrder. by rewrite Hvr, Hv, Hval.
Qed.

(** X4. A placement that succeeds stores one new order
    under an id that was not in use, owned by the caller, pending, with
    the single history entry of the placement; its line items are the
    catalogue snapshots of the requested items, each within stock; no
    review is touched and every stock counter is lowered by the
    quantity the order holds of it. *)
Theorem placeOrder_effects db user req now id order db' :
  Orders.placeOrder db user req now = (Ok (id, order), db') →
  orders db !! id = None
  ∧ orders db' = <[id := order]> (orders db)
  ∧ reviews db' = reviews db
  ∧ Order.user order = uid user
  ∧ Order.status order = "pending"
  ∧ Order.statusHistory order
    = [ {| Order.entry_status := "pending";
           Order.message := "Order placed successfully";
           Order.timestamp := now |} ]
  ∧ Forall2 (snapshotOf (products db)) (Orders.items req) (Order.items order)
  ∧ (∀ pid v,
       Product.stockOf (products db') pid v
       = (fun n => n - orderedQuantity (Order.items order) pid v)
         <$> Product.stockOf (products db) pid v).
Proof.
  intros (s & lines & _ & Hv & _ & -> & -> & ->)%placeOrder_unfold_success.
  apply verifyItems_ok in Hv as (new & -> & _ & Hsnap). simpl.
  split_and!; try done.
  - apply not_elem_of_dom, is_fresh.
  - intros pid v. rewrite stockOf_adjustStock.
    destruct (Product.stockOf _ _ _); simpl; [|done]. f_equal; lia.
Qed.

Lemma placeOrder_effects_witness :
  orders Sample.db0 !! 0%N = None
  ∧ orders Sample.db1 = <[0%N := Sample.order1]> (orders Sample.db0)
  ∧ reviews Sample.db1 = reviews Sample.db0
  ∧ Order.user Sample.order1 = uid Sample.customer
  ∧ Order.status Sample.order1 = "pending"
  ∧ Order.statusHistory Sample.order1
    = [ {| Order.entry_status := "pending";
           Order.message := "Order placed successfully";
           Order.timestamp := 1000 |} ]
  ∧ Forall2 (snapshotOf (products Sample.db0))
      (Orders.items (Sample.request Sample.smallCart None))
      (Order.items Sample.order1)
  ∧ (∀ pid v,
       Product.stockOf (products Sample.db1) pid v
       = (fun n => n - orderedQuantity (Order.items Sample.order1) pid v)
         <$> Product.stockOf (products Sample.db0) pid v).
Proof.
  apply (placeOrder_effects Sample.db0 Sample.customer
           (Sample.request Sample.smallCart None) 1000 0%N Sample.order1
           Sample.db1).
  vm_compute. reflexivity.
Defined.

Lemma orderedQuantity_no_match lines pid v :
  Forall (fun it => (Order.product it, Order.size it) ≠ (pid, v)) lines →
  orderedQuantity lines pid v = 0.
Proof.
  induction 1 as [|it lines Hne _ IH]; simpl; [done|].
  destruct (N.eqb (Order.product it) pid) eqn:E1; simpl; [|done].
  destruct (String.eqb (Order.size it) v) eqn:E2; [|done].
  apply N.eqb_eq in E1. apply String.eqb_eq in E2. congruence.
Qed.

Lemma snapshot_keys ps its lines (k : N * string) :
  Forall2 (snapshotOf ps) its lines →
  k ∉ (fun it => (Orders.product it, Orders.size it)) <$> its →
  Forall (fun it => (Order.product it, Order.size it) ≠ k) lines.
Proof.
  induction 1 as [|item it its lines Hs _ IH]; intros Hnotin; [done|].
  rewrite fmap_cons in Hnotin. apply not_elem_of_cons in Hnotin as [Hne Hnotin].
  constructor; [|by apply IH].
  destruct Hs as (p & sz & _ & _ & _ & _ & ->). simpl. congruence.
Qed.

Lemma orderedQuantity_distinct ps its lines pid v n :
  Forall2 (snapshotOf ps) its lines →
  NoDup ((fun it => (Orders.product it, Orders.size it)) <$> its) →
  Forall (fun it => 0 <= Order.quantity it) lines →
  Product.stockOf ps pid v = Some n → 0 <= n →
  0 <= orderedQuantity lines pid v <= n.
Proof.
  intros Hsnap. induction Hsnap as [|item it its lines Hs Hsnap IH];
    intros Hnd Hq Hstock Hn; [simpl; lia|].
  rewrite fmap_cons in Hnd. apply NoDup_cons in Hnd as [Hnotin Hnd].
  apply Forall_cons in Hq as [Hq0 Hq].
  pose proof (snapshot_keys _ _ _ _ Hsnap Hnotin) as Hkeys.
  simpl.
  destruct (N.eqb (Order.product it) pid && String.eqb (Order.size it) v) eqn:E.
  - apply andb_true_iff in E as [E1%N.eqb_eq E2%String.eqb_eq].
    destruct Hs as (p & sz & Hp & _ & Hsz & Hle & ->). simpl in E1, E2, Hq0.
    subst pid v. rewrite orderedQuantity_no_match by done.
    unfold Product.stockOf in Hstock. rewrite Hp, Hsz in Hstock.
    injection Hstock as <-. simpl. lia.
  - by apply IH.
Qed.

(** X5. When the line items of a request name pairwise
    different sizes, a placement that succeeds leaves every stock
    counter that was not negative not negative, and never raises one. *)
Theorem placeOrder_keeps_stock_nonnegative db user req now id order db' pid v n :
  Orders.placeOrder db user req now = (Ok (id, order), db') →
  NoDup ((fun it => (Orders.product it, Orders.size it)) <$> Orders.items req) →
  Product.stockOf (products db) pid v = Some n →
  0 <= n →
  ∃ n', Product.stockOf (products db') pid v = Some n' ∧ 0 <= n' <= n.
Proof.
  intros (s & lines & _ & Hv & Hval & -> & -> & ->)%placeOrder_unfold_success
         Hnd Hstock Hn.
  apply verifyItems_ok in Hv as (new & -> & _ & Hsnap). simpl in *.
  rewrite stockOf_adjustStock, Hstock. simpl. eexists. split; [reflexivity|].
  assert (0 <= orderedQuantity new pid v <= n); [|lia].
  eapply orderedQuantity_distinct; try done.
  unfold Order.validate in Hval. simpl in Hval.
  apply andb_true_iff in Hval as [Hval _].
  apply andb_true_iff in Hval as [Hq _].
  rewrite forallb_forall in Hq. apply List.Forall_forall.
  intros it Hit. specialize (Hq it Hit). apply Z.leb_le in Hq. lia.
Qed.

Lemma placeOrder_keeps_stock_nonnegative_witness :
  ∃ n', Product.stockOf (products Sample.db1) 2 "3ml" = Some n'
        ∧ 0 <= n' <= 60.
Proof.
  apply (placeOrder_keeps_stock_nonnegative Sample.db0 Sample.customer
           (Sample.request Sample.smallCart None) 1000 0%N Sample.order1
           Sample.db1 2%N "3ml" 60).
  - vm_compute. reflexivity.
  - simpl. apply NoDup_cons. split.
    + intros [=]%list_elem_of_singleton.
    + apply NoDup_singleton.
  - reflexivity.
  - lia.
Defined.

(** Two lines of six for a size with ten in stock pass the per-line
    check and leave the counter at -2. *)
Example placeOrder_repeated_lines :
  let req := Sample.request
               [ Orders.mkItemReq 1 "12ml" 6; Orders.mkItemReq 1 "12ml" 6 ] None in
  Product.stockOf (products Sample.db0) 1 "12ml" = Some 10
  ∧ Product.stockOf
      (products (snd (Orders.placeOrder Sample.db0 Sample.customer req 1000)))
      1 "12ml" = Some (-2).
Proof. vm_compute. split; reflexivity. Qed.

(** X6. After a placement the caller reads the order back as
    it was returned, so does every admin, and any other user is refused. *)
Theorem getOrder_after_placeOrder db user req now id order db' :
  Orders.placeOrder db user req now = (Ok (id, order), db') →
  OrderViews.getOrder db' user id = Sent order
  ∧ (∀ a, role a = "admin" → OrderViews.getOrder db' a id = Sent order)
  ∧ (∀ other, uid other ≠ uid user → role other ≠ "admin" →
       OrderViews.getOrder db' other id
       = Refused (Refuse 403 "Not authorized"))
  ∧ OrderViews.getOrder db user id = Refused (Refuse 404 "Order not found").
Proof.
  intros (s & lines & _ & _ & _ & -> & -> & ->)%placeOrder_unfold_success.
  unfold OrderViews.getOrder. simpl. rewrite lookup_insert_eq.
  assert (orders db !! fresh (dom (orders db)) = None) as ->.
  { apply not_elem_of_dom, is_fresh. }
  rewrite preSave_unfold; simpl.
  split_and!; [|intros a Ha|intros other Hne Hrole|done].
  - by rewrite N.eqb_refl.
  - rewrite Ha. simpl. by rewrite andb_false_r.
  - apply N.eqb_neq in Hne. rewrite N.eqb_sym, Hne.
    apply String.eqb_neq in Hrole. by rewrite Hrole.
Qed.

Lemma getOrder_after_placeOrder_witness :
  OrderViews.getOrder Sample.db1 Sample.customer 0 = Sent Sample.order1
  ∧ (∀ a, role a = "admin" → OrderViews.getOrder Sample.db1 a 0 = Sent Sample.order1)
  ∧ (∀ other, uid other ≠ uid Sample.customer → role other ≠ "admin" →
       OrderViews.getOrder Sample.db1 other 0
       = Refused (Refuse 403 "Not authorized"))
  ∧ OrderViews.getOrder Sample.db0 Sample.customer 0
    = Refused (Refuse 404 "Order not found").
Proof.
  apply (getOrder_after_placeOrder Sample.db0 Sample.customer
           (Sample.request Sample.smallCart None) 1000 0%N Sample.order1
           Sample.db1).
  vm_compute. reflexivity.
Defined.

(** ** What the handlers do to the catalogue *)













(** ** What the handlers do to the reviews *)

Lemma validate_rating r :
  ReviewWrites.validate r = true →
  (1 <= Review.rating r)%Q ∧ (Review.rating r <= 5)%Q.
Proof.
  unfold ReviewWrites.validate. rewrite !andb_true_iff.
  intros [[[[[H1 H2] _] _] _] _]. by rewrite <- !Qle_bool_iff.
Qed.

Lemma findExisting_None rs u p k r :
  ReviewWrites.findExisting rs u p = None →
  rs !! k = Some r → ¬ (Review.user r = u ∧ Review.product r = p).
Proof.
  unfold ReviewWrites.findExisting. intros Hnone Hk [Hu Hp].
  apply elem_of_map_to_list, list_elem_of_In in Hk.
  apply (find_none _ _ Hnone) in Hk. simpl in Hk.
  by rewrite Hu, Hp, !N.eqb_refl in Hk.
Qed.

Lemma incSizes_ratings v d p : Product.ratings (incSizes v d p) = Product.ratings p.
Proof. done. Qed.

Lemma adjustStock_ratings sign lines ps id :
  Product.ratings <$> Orders.adjustStock sign lines ps !! id
  = Product.ratings <$> ps !! id.
Proof.
  revert ps. induction lines as [|it lines IH]; intros ps; [done|].
  rewrite adjustStock_cons, IH, updateOne_alter, lookup_alter.
  case_decide; [|done]. subst. by destruct (ps !! _).
Qed.

Lemma step_reviews db db' :
  step db db' →
  (reviews db' = reviews db
   ∧ ∀ id, Product.ratings <$> products db' !! id
           = Product.ratings <$> products db !! id)
  ∨ (∃ id r,
       reviews db' = <[id := r]> (reviews db)
       ∧ products db'
         = Review.updateProductRating (reviews db') (Review.product r) (products db)
       ∧ reviewWritten (reviews db) id r)
  ∨ (∃ id r0,
       reviews db !! id = Some r0
       ∧ reviews db' = delete id (reviews db)
       ∧ products db'
         = Review.updateProductRating (reviews db') (Review.product r0) (products db)).
Proof.
  intros [user req now|user id reason now|user id req now|event now|id now
         |stripe gateway user id now|user id|user req|user id req|user id].
  - left. unfold Orders.placeOrder.
    destruct (negb (Orders.validationResult req)); [done|].
    destruct (Orders.verifyItems _ _ _ _) as [[s ois]|]; [|done].
    destruct (negb (Order.validate _)); [done|].
    split; [done|]. intros id. apply adjustStock_ratings.
  - left. unfold Orders.cancelOrder.
    destruct (orders db !! id) as [o|]; [|done].
    destruct (negb (N.eqb _ _)); [done|].
    destruct (negb (includes _ _)); [done|].
    split; [done|]. intros id'. apply adjustStock_ratings.
  - left. unfold Orders.updateStatus.
    destruct (negb (String.eqb _ _)); [done|].
    destruct (negb (includes _ _)); [done|].
    by destruct (orders db !! id).
  - left. destruct event as [intent|intent|]; simpl; [| |done];
      by destruct (Payments.findByIntent _ _) as [[? ?]|].
  - left. unfold Payments.confirmCod.
    destruct (orders db !! id); [|done].
    by destruct (negb (String.eqb _ _)).
  - left. unfold PaymentIntents.createIntent.
    destruct (negb stripe); [done|].
    destruct (orders db !! id); [|done].
    by destruct (negb (N.eqb _ _)).
  - unfold Reviews.toggleHelpful.
    destruct (reviews db !! id) as [r0|] eqn:Hr; [|by left].
    right. left. eexists _, _. split; [reflexivity|]. split; [reflexivity|].
    right. exists r0. split; [done|].
    by destruct (existsb _ _); split_and!; try done; left.
  - unfold ReviewWrites.createReview.
    destruct (negb (ReviewWrites.validationResult req)); [by left|].
    destruct (ReviewWrites.findExisting _ _ _) eqn:Hf; [by left|].
    destruct (negb (ReviewWrites.validate _)) eqn:Hval; [by left|].
    apply negb_false_iff, validate_rating in Hval.
    right. left. eexists _, _. split; [reflexivity|]. split; [reflexivity|].
    left. split; [apply not_elem_of_dom, is_fresh|]. split; [|done].
    intros k r' Hk. by apply (findExisting_None _ _ _ k r' Hf).
  - unfold ReviewWrites.updateReview.
    destruct (reviews db !! id) as [r0|] eqn:Hr; [|by left].
    destruct (negb (N.eqb _ _)); [by left|].
    destruct (negb (ReviewWrites.validate _)) eqn:Hval; [by left|].
    apply negb_false_iff, validate_rating in Hval.
    right. left. eexists _, _. split; [reflexivity|]. split; [reflexivity|].
    right. exists r0. split_and!; try done. by right.
  - unfold ReviewWrites.deleteReview.
    destruct (reviews db !! id) as [r0|] eqn:Hr; [|by left].
    destruct (negb _ && negb _); [by left|].
    right. right. by eexists _, _.
Qed.

Lemma reviewWritten_lookup rs id r k x :
  reviewWritten rs id r → <[id := r]> rs !! k = Some x →
  (k = id ∧ x = r) ∨ (k ≠ id ∧ rs !! k = Some x).
Proof.
  intros _ Hx. destruct (decide (id = k)) as [->|Hne].
  - rewrite lookup_insert_eq in Hx. injection Hx as <-. by left.
  - rewrite lookup_insert_ne in Hx by done. right. by split.
Qed.

(** X8. If no user has two reviews of one product, this is
    still so after any number of requests. *)
Theorem one_review_per_user_and_product db db' :
  oneReviewEach (reviews db) → rtc step db db' → oneReviewEach (reviews db').
Proof.
  intros Hone Hsteps. induction Hsteps as [db|db1 db2 db3 Hstep _ IH]; [done|].
  apply IH. clear IH.
  apply step_reviews in Hstep
    as [[-> _]|[(id & r & -> & _ & Hw)|(id & r0 & _ & -> & _)]]; [done| |].
  - intros id1 id2 r1 r2 H1 H2 Hu Hp.
    destruct (decide (id1 = id2)) as [|Hne]; [done|]. exfalso.
    apply (reviewWritten_lookup _ _ _ _ _ Hw) in H1 as [[-> ->]|[Hn1 H1]];
      apply (reviewWritten_lookup _ _ _ _ _ Hw) in H2 as [[-> ->]|[Hn2 H2]];
      try done.
    + destruct Hw as [(_ & Hnew & _)|(r0 & Hr0 & Hu0 & Hp0 & _)].
      * apply (Hnew _ _ H2). split; congruence.
      * apply Hne. eapply Hone; [exact Hr0|exact H2|congruence|congruence].
    + destruct Hw as [(_ & Hnew & _)|(r0 & Hr0 & Hu0 & Hp0 & _)].
      * apply (Hnew _ _ H1). split; congruence.
      * apply Hne. eapply Hone; [exact H1|exact Hr0|congruence|congruence].
    + apply Hne. by eapply Hone.
  - intros id1 id2 r1 r2 [_ H1]%lookup_delete_Some [_ H2]%lookup_delete_Some.
    by apply Hone.
Qed.

(** X9. If every stored rating lies between 1 and 5, this
    is still so after any number of requests. *)
Theorem ratings_stay_in_range db db' :
  ratingsInRange (reviews db) → rtc step db db' → ratingsInRange (reviews db').
Proof.
  intros Hin Hsteps. induction Hsteps as [db|db1 db2 db3 Hstep _ IH]; [done|].
  apply IH. clear IH.
  apply step_reviews in Hstep
    as [[-> _]|[(id & r & -> & _ & Hw)|(id & r0 & _ & -> & _)]]; [done| |].
  - intros k x Hx.
    apply (reviewWritten_lookup _ _ _ _ _ Hw) in Hx as [[-> ->]|[_ Hx]];
      [|by eapply Hin].
    destruct Hw as [(_ & _ & Hr)|(r0 & Hr0 & _ & _ & [->|Hr])]; try done.
    by eapply Hin.
  - intros k x [_ Hx]%lookup_delete_Some. by eapply Hin.
Qed.

(** ** Ratings and the reviews behind them *)

Lemma List_filter_perm {A} (f : A → bool) (l l' : list A) :
  l ≡ₚ l' → List.filter f l ≡ₚ List.filter f l'.
Proof.
  induction 1 as [|x l l' _ IH|x y l|l1 l2 l3 _ IH1 _ IH2]; simpl.
  - done.
  - destruct (f x); [by constructor|done].
  - destruct (f x), (f y); try done. apply perm_swap.
  - by etrans.
Qed.






Lemma sumRatings_acc l a :
  (fold_left (fun acc r => acc + Review.rating r) l a
   == a + Review.sumRatings l)%Q.
Proof.
  unfold Review.sumRatings. revert a.
  induction l as [|r l IH]; intros a; simpl; [lra|].
  rewrite (IH (a + Review.rating r)%Q), (IH (0 + Review.rating r)%Q). lra.
Qed.

Lemma sumRatings_cons r l :
  (Review.sumRatings (r :: l) == Review.rating r + Review.sumRatings l)%Q.
Proof. unfold Review.sumRatings at 1. simpl. rewrite sumRatings_acc. lra. Qed.








Lemma one_review_per_user_and_product_witness :
  oneReviewEach
    (reviews (snd (ReviewWrites.createReview Sample.db0 Sample.customer
                     (ReviewWrites.mkCreateReq 2 5 "Lotus" "A serene fragrance")))).
Proof.
  apply (one_review_per_user_and_product Sample.db0).
  - intros id1 id2 r1 r2 H1. simpl in H1. rewrite lookup_empty in H1. discriminate.
  - apply rtc_once, step_createReview.
Defined.

Lemma ratings_stay_in_range_witness :
  ratingsInRange
    (reviews (snd (ReviewWrites.createReview Sample.db0 Sample.customer
                     (ReviewWrites.mkCreateReq 2 5 "Lotus" "A serene fragrance")))).
Proof.
  apply (ratings_stay_in_range Sample.db0).
  - intros id r H. simpl in H. rewrite lookup_empty in H. discriminate.
  - apply rtc_once, step_createReview.
Defined.

(** The sample review is stored and rated. *)
Example createReview_sample :
  let r := ReviewWrites.createReview Sample.db0 Sample.customer
             (ReviewWrites.mkCreateReq 2 5 "  Lotus " "A serene fragrance") in
  (Review.title <$> reviews (snd r) !! 0%N) = Some "Lotus"
  ∧ (Product.count ∘ Product.ratings <$> products (snd r) !! 2%N) = Some 1.
Proof. vm_compute. split; reflexivity. Qed.

Lemma sumRatings_bounds l :
  Forall (fun r => (1 <= Review.rating r)%Q ∧ (Review.rating r <= 5)%Q) l →
  (inject_Z (Z.of_nat (length l)) <= Review.sumRatings l)%Q
  ∧ (Review.sumRatings l <= 5 * inject_Z (Z.of_nat (length l)))%Q.
Proof.
  induction 1 as [|r l [H1 H5] _ [IHl IHu]].
  - split; unfold Qle; simpl; lia.
  - rewrite sumRatings_cons. cbn [length]. rewrite Nat2Z.inj_succ.
    unfold Z.succ. rewrite inject_Z_plus. change (inject_Z 1) with 1%Q.
    split; lra.
Qed.

Lemma round1_bounds x :
  (1 <= x)%Q → (x <= 5)%Q → (1 <= round1 x)%Q ∧ (round1 x <= 5)%Q.
Proof.
  intros H1 H5. unfold round1, Math_round, Qdiv.
  change (/ 10)%Q with (1 # 10)%Q.
  assert (10 <= x * 10 + (1 # 2))%Q as Hl by lra.
  assert (x * 10 + (1 # 2) <= 101 # 2)%Q as Hu by lra.
  apply Qfloor_resp_le in Hl, Hu.
  change (Qfloor 10) with 10%Z in Hl. change (Qfloor (101 # 2)) with 50%Z in Hu.
  rewrite Zle_Qle in Hl, Hu.
  change (inject_Z 10) with 10%Q in Hl. change (inject_Z 50) with 50%Q in Hu.
  split; lra.
Qed.

(** X11. When every stored rating lies between 1 and 5,
    the rating a recomputation writes is either average 0 with count 0
    (no approved review) or an average between 1 and 5 with a positive
    count. *)
Theorem recomputed_rating_bounds rs pid ps p' :
  ratingsInRange rs →
  Review.updateProductRating rs pid ps !! pid = Some p' →
  (Product.average (Product.ratings p') = 0%Q
   ∧ Product.count (Product.ratings p') = 0)
  ∨ ((1 <= Product.average (Product.ratings p'))%Q
     ∧ (Product.average (Product.ratings p') <= 5)%Q
     ∧ 1 <= Product.count (Product.ratings p')).
Proof.
  intros Hrange. rewrite updateProductRating_lookup, lookup_alter_eq.
  destruct (ps !! pid) as [p|]; [|done]. intros [= <-].
  assert (Forall (fun r => (1 <= Review.rating r)%Q ∧ (Review.rating r <= 5)%Q)
            (Review.matching rs pid)) as Hall.
  { apply List.Forall_forall. intros r [(k & Hk) _]%In_matching. by eapply Hrange. }
  cbn [Product.ratings Product.set_ratings recomputed Product.average Product.count].
  remember (Review.matching rs pid) as m eqn:Em. clear Em.
  destruct m as [|r l]; [by left|]. right.
  destruct (sumRatings_bounds _ Hall) as [Hl Hu].
  assert (1 <= Z.of_nat (length (r :: l))) as Hlen by (simpl; lia).
  assert (0 < inject_Z (Z.of_nat (length (r :: l))))%Q as Hpos.
  { change 0%Q with (inject_Z 0). rewrite <- Zlt_Qlt. lia. }
  assert ((1 <= meanRating (r :: l))%Q ∧ (meanRating (r :: l) <= 5)%Q) as [H1 H5].
  { unfold meanRating. split.
    - apply Qle_shift_div_l; [done|lra].
    - apply Qle_shift_div_r; [done|lra]. }
  destruct (round1_bounds _ H1 H5). by split_and!.
Qed.

Lemma recomputed_rating_bounds_witness :
  let p' := Product.set_ratings Sample.lotus
              (recomputed (Review.matching Sample.someReviews 2)) in
  (Product.average (Product.ratings p') = 0%Q
   ∧ Product.count (Product.ratings p') = 0)
  ∨ ((1 <= Product.average (Product.ratings p'))%Q
     ∧ (Product.average (Product.ratings p') <= 5)%Q
     ∧ 1 <= Product.count (Product.ratings p')).
Proof.
  apply (recomputed_rating_bounds Sample.someReviews 2 Sample.catalogue).
  - intros id r H. unfold Sample.someReviews in H.
    repeat (rewrite lookup_insert in H;
            destruct (decide _);
            [injection H as <-; simpl; split; unfold Qle; simpl; lia|]).
    rewrite lookup_empty in H. discriminate.
  - vm_compute. reflexivity.
Defined.

(** ** Creating a review *)

Lemma hasPurchased_spec os u p :
  is_Some (ReviewWrites.hasPurchased os u p)
  ↔ ∃ oid o it, os !! oid = Some o ∧ Order.user o = u
                ∧ Order.status o = "delivered"
                ∧ In it (Order.items o) ∧ Order.product it = p.
Proof.
  unfold ReviewWrites.hasPurchased. split.
  - intros [[oid o] Hf]. apply find_some in Hf as [Hin Hb]. simpl in Hb.
    apply list_elem_of_In, elem_of_map_to_list in Hin.
    apply andb_true_iff in Hb as [Hb Hs]. apply andb_true_iff in Hb as [Hu Hit].
    apply existsb_exists in Hit as (it & Hit & Hp).
    apply N.eqb_eq in Hu, Hp. apply String.eqb_eq in Hs.
    by exists oid, o, it.
  - intros (oid & o & it & Ho & Hu & Hs & Hit & Hp).
    destruct (List.find _ _) as [x|] eqn:Hf; [by eexists|]. exfalso.
    apply elem_of_map_to_list, list_elem_of_In in Ho.
    apply (find_none _ _ Hf) in Ho. simpl in Ho.
    rewrite Hu, Hs, N.eqb_refl, String.eqb_refl in Ho. simpl in Ho.
    rewrite andb_true_r in Ho.
    assert (existsb (fun it => N.eqb (Order.product it) p) (Order.items o) = true)
      as Hex; [|congruence].
    apply existsb_exists. exists it. split; [done|]. by apply N.eqb_eq.
Qed.

(** X12. A review that is accepted is stored under an id
    that was not in use, for the caller and the product asked, with the
    rating sent and the trimmed title and comment, approved, without
    votes; it is marked a verified purchase exactly when the caller has
    a delivered order with a line item of that product. *)
Theorem createReview_stores db user req id r db' :
  ReviewWrites.createReview db user req = (Sent (id, r), db') →
  reviews db !! id = None
  ∧ reviews db' = <[id := r]> (reviews db)
  ∧ orders db' = orders db
  ∧ Review.user r = uid user
  ∧ Review.product r = ReviewWrites.product req
  ∧ Review.rating r = inject_Z (ReviewWrites.rating req)
  ∧ 1 <= ReviewWrites.rating req <= 5
  ∧ Review.title r = ReviewWrites.trim (ReviewWrites.title req)
  ∧ Review.comment r = ReviewWrites.trim (ReviewWrites.comment req)
  ∧ Review.isApproved r = true
  ∧ Review.helpfulVotes r = 0
  ∧ Review.votedBy r = []
  ∧ (Review.isVerifiedPurchase r = true
     ↔ ∃ oid o it, orders db !! oid = Some o ∧ Order.user o = uid user
                   ∧ Order.status o = "delivered"
                   ∧ In it (Order.items o)
                   ∧ Order.product it = ReviewWrites.product req).
Proof.
  unfold ReviewWrites.createReview.
  destruct (negb (ReviewWrites.validationResult req)) eqn:Hv; [done|].
  destruct (ReviewWrites.findExisting _ _ _); [done|].
  destruct (negb (ReviewWrites.validate _)); [done|].
  intros [= <- <- <-]. simpl.
  apply negb_false_iff in Hv. unfold ReviewWrites.validationResult in Hv.
  rewrite !andb_true_iff, !Z.leb_le in Hv. destruct Hv as [[[H1 H5] _] _].
  split_and!; try done.
  - apply not_elem_of_dom, is_fresh.
  - rewrite <- hasPurchased_spec.
    destruct (ReviewWrites.hasPurchased _ _ _); split; try done;
      by intros [? [=]].
Qed.

(** X13. A second review of a product by a user who has
    one already is refused with 'You have already reviewed this
    product' and changes nothing. *)
Theorem createReview_duplicate_refused db user req id0 r0 :
  reviews db !! id0 = Some r0 →
  Review.user r0 = uid user →
  Review.product r0 = ReviewWrites.product req →
  ReviewWrites.validationResult req = true →
  ReviewWrites.createReview db user req
  = (Refused (Refuse 400 "You have already reviewed this product"), db).
Proof.
  intros Hr Hu Hp Hv. unfold ReviewWrites.createReview. rewrite Hv. simpl.
  destruct (ReviewWrites.findExisting _ _ _) eqn:Hf; [done|].
  exfalso. by apply (findExisting_None _ _ _ id0 r0 Hf).
Qed.

Lemma createReview_stores_witness :
  reviews Sample.db1 !! 0%N = None
  ∧ reviews (snd (ReviewWrites.createReview Sample.db1 Sample.customer
                    MoreSamples.lotusReq))
    = <[0%N := MoreSamples.lotusReview]> (reviews Sample.db1)
  ∧ orders (snd (ReviewWrites.createReview Sample.db1 Sample.customer
                   MoreSamples.lotusReq))
    = orders Sample.db1
  ∧ Review.user MoreSamples.lotusReview = uid Sample.customer
  ∧ Review.product MoreSamples.lotusReview
    = ReviewWrites.product MoreSamples.lotusReq
  ∧ Review.rating MoreSamples.lotusReview
    = inject_Z (ReviewWrites.rating MoreSamples.lotusReq)
  ∧ 1 <= ReviewWrites.rating MoreSamples.lotusReq <= 5
  ∧ Review.title MoreSamples.lotusReview
    = ReviewWrites.trim (ReviewWrites.title MoreSamples.lotusReq)
  ∧ Review.comment MoreSamples.lotusReview
    = ReviewWrites.trim (ReviewWrites.comment MoreSamples.lotusReq)
  ∧ Review.isApproved MoreSamples.lotusReview = true
  ∧ Review.helpfulVotes MoreSamples.lotusReview = 0
  ∧ Review.votedBy MoreSamples.lotusReview = []
  ∧ (Review.isVerifiedPurchase MoreSamples.lotusReview = true
     ↔ ∃ oid o it, orders Sample.db1 !! oid = Some o
                   ∧ Order.user o = uid Sample.customer
                   ∧ Order.status o = "delivered"
                   ∧ In it (Order.items o)
                   ∧ Order.product it = ReviewWrites.product MoreSamples.lotusReq).
Proof.
  apply (createReview_stores Sample.db1 Sample.customer MoreSamples.lotusReq
           0%N MoreSamples.lotusReview).
  vm_compute. reflexivity.
Defined.

Lemma createReview_duplicate_refused_witness :
  ReviewWrites.createReview Sample.dbReviews Sample.customer MoreSamples.lotusReq
  = (Refused (Refuse 400 "You have already reviewed this product"),
     Sample.dbReviews).
Proof.
  apply (createReview_duplicate_refused Sample.dbReviews Sample.customer
           MoreSamples.lotusReq 0%N (Sample.review 7 5 true 1 [8%N])).
  - reflexivity.
  - reflexivity.
  - reflexivity.
  - reflexivity.
Defined.

(** Once the order is delivered the review is a verified purchase. *)
Example createReview_verified :
  let db := snd (Orders.updateStatus Sample.db1 Sample.admin 0
                   (Sample.statusReq "delivered") 2000) in
  (Review.isVerifiedPurchase ∘ snd <$> 
     match fst (ReviewWrites.createReview db Sample.customer MoreSamples.lotusReq) with
     | Sent x => Some x
     | Refused _ => None
     end) = Some true.
Proof. vm_compute. reflexivity. Qed.

(** ** The inventory overview *)

Lemma In_activeProducts ps id p :
  In (id, p) (Admin.activeProducts ps)
  ↔ ps !! id = Some p ∧ Product.isActive p = true.
Proof.
  unfold Admin.activeProducts. rewrite filter_In. simpl.
  by rewrite <- list_elem_of_In, elem_of_map_to_list.
Qed.

Lemma length_activeProducts (ps : gmap N Product.t) :
  length (Admin.activeProducts ps)
  = size (filter (fun kp => Product.isActive kp.2 = true) ps).
Proof.
  unfold Admin.activeProducts.
  induction ps as [|id p ps Hnone IH] using map_ind.
  - by rewrite map_to_list_empty, map_filter_empty, map_size_empty.
  - rewrite (Permutation_length
               (List_filter_perm _ _ _ (map_to_list_insert ps id p Hnone))).
    simpl. destruct (Product.isActive p) eqn:E.
    + rewrite map_filter_insert_True by done.
      rewrite map_size_insert_None by (by rewrite map_lookup_filter_None; left).
      simpl. by rewrite IH.
    + rewrite map_filter_insert_not' ; [done| |].
      * simpl. by rewrite E.
      * intros y. by rewrite Hnone.
Qed.

Lemma scanSize_spec name category acc s :
  (∀ e, In e (snd (Admin.scanSize name category acc s))
        ↔ In e (snd acc)
          ∨ (Product.stock s = 0
             ∧ e = Admin.mkOut name (Product.volume s) category))
  ∧ (∀ e, In e (fst (Admin.scanSize name category acc s))
          ↔ In e (fst acc)
            ∨ (Product.stock s ≠ 0 ∧ Product.stock s < 5
               ∧ e = Admin.mkLow name (Product.volume s) (Product.stock s) category)).
Proof.
  unfold Admin.scanSize.
  destruct (Product.stock s =? 0) eqn:E0; [apply Z.eqb_eq in E0|apply Z.eqb_neq in E0].
  - split; intros e; simpl; [rewrite in_app_iff; simpl|]; intuition congruence.
  - destruct (Product.stock s <? 5) eqn:E5;
      [apply Z.ltb_lt in E5|apply Z.ltb_ge in E5].
    + split; intros e; simpl; [|rewrite in_app_iff; simpl]; intuition congruence.
    + split; intros e; intuition lia.
Qed.

Lemma scanSizes_spec name category ss acc :
  (∀ e, In e (snd (fold_left (Admin.scanSize name category) ss acc))
        ↔ In e (snd acc)
          ∨ ∃ s, In s ss ∧ Product.stock s = 0
                 ∧ e = Admin.mkOut name (Product.volume s) category)
  ∧ (∀ e, In e (fst (fold_left (Admin.scanSize name category) ss acc))
          ↔ In e (fst acc)
            ∨ ∃ s, In s ss ∧ Product.stock s ≠ 0 ∧ Product.stock s < 5
                   ∧ e = Admin.mkLow name (Product.volume s) (Product.stock s)
                           category).
Proof.
  revert acc. induction ss as [|s ss IH]; intros acc; simpl.
  - split; intros e; split; [by left|by intros [?|(? & [] & _)]
                            |by left|by intros [?|(? & [] & _)]].
  - destruct (IH (Admin.scanSize name category acc s)) as [IHo IHl].
    destruct (scanSize_spec name category acc s) as [Ho Hl].
    split; intros e.
    + rewrite IHo, Ho. split.
      * intros [[?|(? & ->)]|(s' & ? & ? & ->)]; eauto 10.
      * intros [?|(s' & [<-|?] & ? & ->)]; eauto 10.
    + rewrite IHl, Hl. split.
      * intros [[?|(? & ? & ->)]|(s' & ? & ? & ? & ->)]; eauto 10.
      * intros [?|(s' & [<-|?] & ? & ? & ->)]; eauto 10.
Qed.

Lemma scanProducts_spec categoryOf l acc :
  (∀ e, In e (snd (Admin.scanProducts categoryOf l acc))
        ↔ In e (snd acc)
          ∨ ∃ id p s, In (id, p) l ∧ In s (Product.sizes p)
                      ∧ Product.stock s = 0
                      ∧ e = Admin.mkOut (Product.name p) (Product.volume s)
                              (categoryOf id))
  ∧ (∀ e, In e (fst (Admin.scanProducts categoryOf l acc))
          ↔ In e (fst acc)
            ∨ ∃ id p s, In (id, p) l ∧ In s (Product.sizes p)
                        ∧ Product.stock s ≠ 0 ∧ Product.stock s < 5
                        ∧ e = Admin.mkLow (Product.name p) (Product.volume s)
                                (Product.stock s) (categoryOf id)).
Proof.
  unfold Admin.scanProducts. revert acc.
  induction l as [|[id p] l IH]; intros acc; simpl.
  - split; intros e; split; [by left|by intros [?|(? & ? & ? & [] & _)]
                            |by left|by intros [?|(? & ? & ? & [] & _)]].
  - destruct (IH (fold_left (Admin.scanSize (Product.name p) (categoryOf id))
                    (Product.sizes p) acc)) as [IHo IHl].
    destruct (scanSizes_spec (Product.name p) (categoryOf id) (Product.sizes p) acc)
      as [Ho Hl].
    split; intros e.
    + rewrite IHo, Ho. split.
      * intros [[?|(s & ? & ? & ->)]|(id' & p' & s & ? & ? & ? & ->)]; eauto 12.
      * intros [?|(id' & p' & s & [[= <- <-]|?] & ? & ? & ->)]; eauto 12.
    + rewrite IHl, Hl. split.
      * intros [[?|(s & ? & ? & ? & ->)]|(id' & p' & s & ? & ? & ? & ? & ->)];
          eauto 12.
      * intros [?|(id' & p' & s & [[= <- <-]|?] & ? & ? & ? & ->)]; eauto 12.
Qed.

(** X14. For an admin the overview lists, over the sizes of the
    active products, exactly those with stock 0 as out of stock and
    exactly those with a stock other than 0 and below 5 (a negative
    count included) as low stock, each with its product name, size
    label and category; it counts the active products. *)
Theorem inventory_classifies categoryOf db user :
  role user = "admin" →
  ∃ inv,
    Admin.inventory categoryOf db user = Sent inv
    ∧ (∀ e, In e (Admin.outOfStock inv)
            ↔ ∃ id p s, products db !! id = Some p
                        ∧ Product.isActive p = true
                        ∧ In s (Product.sizes p)
                        ∧ Product.stock s = 0
                        ∧ e = Admin.mkOut (Product.name p) (Product.volume s)
                                (categoryOf id))
    ∧ (∀ e, In e (Admin.lowStock inv)
            ↔ ∃ id p s, products db !! id = Some p
                        ∧ Product.isActive p = true
                        ∧ In s (Product.sizes p)
                        ∧ Product.stock s ≠ 0 ∧ Product.stock s < 5
                        ∧ e = Admin.mkLow (Product.name p) (Product.volume s)
                                (Product.stock s) (categoryOf id))
    ∧ Admin.totalProducts inv
      = size (filter (fun kp => Product.isActive kp.2 = true) (products db)).
Proof.
  intros Hadmin. unfold Admin.inventory. rewrite Hadmin. simpl.
  eexists. split; [reflexivity|]. simpl.
  destruct (scanProducts_spec categoryOf (Admin.activeProducts (products db))
              ([], [])) as [Ho Hl].
  split_and!.
  - intros e. rewrite Ho. simpl. split.
    + intros [[]|(id & p & s & [Hp Ha]%In_activeProducts & ? & ? & ->)]. eauto 10.
    + intros (id & p & s & Hp & Ha & ? & ? & ->). right.
      exists id, p, s. by rewrite In_activeProducts.
  - intros e. rewrite Hl. simpl. split.
    + intros [[]|(id & p & s & [Hp Ha]%In_activeProducts & ? & ? & ? & ->)].
      eauto 10.
    + intros (id & p & s & Hp & Ha & ? & ? & ? & ->). right.
      exists id, p, s. by rewrite In_activeProducts.
  - apply length_activeProducts.
Qed.

Lemma inventory_classifies_witness :
  ∃ inv,
    Admin.inventory MoreSamples.categoryOf MoreSamples.shelfDb Sample.admin
    = Sent inv
    ∧ (∀ e, In e (Admin.outOfStock inv)
            ↔ ∃ id p s, products MoreSamples.shelfDb !! id = Some p
                        ∧ Product.isActive p = true
                        ∧ In s (Product.sizes p)
                        ∧ Product.stock s = 0
                        ∧ e = Admin.mkOut (Product.name p) (Product.volume s)
                                (MoreSamples.categoryOf id))
    ∧ (∀ e, In e (Admin.lowStock inv)
            ↔ ∃ id p s, products MoreSamples.shelfDb !! id = Some p
                        ∧ Product.isActive p = true
                        ∧ In s (Product.sizes p)
                        ∧ Product.stock s ≠ 0 ∧ Product.stock s < 5
                        ∧ e = Admin.mkLow (Product.name p) (Product.volume s)
                                (Product.stock s) (MoreSamples.categoryOf id))
    ∧ Admin.totalProducts inv
      = size (filter (fun kp => Product.isActive kp.2 = true)
                (products MoreSamples.shelfDb)).
Proof.
  apply (inventory_classifies MoreSamples.categoryOf MoreSamples.shelfDb
           Sample.admin).
  reflexivity.
Defined.

(** The sold-out size, the scarce one and the oversold one of the shelf;
    the size with five left and the retired product are not listed. *)
Example inventory_shelf :
  ∃ inv,
    Admin.inventory MoreSamples.categoryOf MoreSamples.shelfDb Sample.admin
    = Sent inv
    ∧ Admin.outOfStock inv
      = [ Admin.mkOut "Mysore Shamama" "3ml" "Spice & Oriental" ]
    ∧ Permutation (Admin.lowStock inv)
        [ Admin.mkLow "Mysore Shamama" "6ml" 4 "Spice & Oriental";
          Admin.mkLow "Black Oud Cambodian" "3ml" (-2) "Oud & Agarwood" ]
    ∧ Admin.totalProducts inv = 2%nat.
Proof.
  eexists. split; [vm_compute; reflexivity|].
  split; [reflexivity|]. split; [|reflexivity].
  first [ reflexivity | apply perm_swap ].
Qed.

(** ** Coupons and totals *)

Lemma upperAscii_idem c : Cart.upperAscii (Cart.upperAscii c) = Cart.upperAscii c.
Proof. destruct c as [[] [] [] [] [] [] [] []]; reflexivity. Qed.

Lemma toUpperCase_idem s : Cart.toUpperCase (Cart.toUpperCase s) = Cart.toUpperCase s.
Proof. induction s as [|c s IH]; simpl; [done|]. by rewrite upperAscii_idem, IH. Qed.

Lemma lookupCoupon_In tbl k d : Cart.lookupCoupon tbl k = Some d → In (k, d) tbl.
Proof.
  induction tbl as [|[k' d'] tbl IH]; simpl; [done|].
  destruct (String.eqb k' k) eqn:E.
  - apply String.eqb_eq in E. intros [= <-]. left. by subst.
  - intros H. right. by apply IH.
Qed.

Lemma lookupCoupon_cons k' d tbl k :
  Cart.lookupCoupon ((k', d) :: tbl) k
  = if String.eqb k' k then Some d else Cart.lookupCoupon tbl k.
Proof. done. Qed.

(** X15. The coupon check does not look at the case of the
    letters: a code and its upper-case form get the same answer. The
    answer is either 'Invalid coupon code' or the upper-case code with
    its entry of the coupon table, and it is the latter exactly for the
    four codes of the table. *)
Theorem checkCoupon_ignores_case c :
  Cart.checkCoupon (Some (Cart.toUpperCase c)) = Cart.checkCoupon (Some c)
  ∧ (Cart.checkCoupon (Some c) = Err InvalidCoupon
     ∨ ∃ d, Cart.checkCoupon (Some c) = Ok (Cart.toUpperCase c, d)
            ∧ In (Cart.toUpperCase c, d) Cart.coupons)
  ∧ ((∃ r, Cart.checkCoupon (Some c) = Ok r)
     ↔ In (Cart.toUpperCase c) ["WELCOME10"; "ATTAR20"; "FREESHIP"; "ROYAL50"]).
Proof.
  unfold Cart.checkCoupon. rewrite toUpperCase_idem. split; [done|]. split.
  - destruct (Cart.lookupCoupon _ _) as [d|] eqn:E; [right|by left].
    exists d. split; [done|]. by apply lookupCoupon_In.
  - generalize (Cart.toUpperCase c). intros k. unfold Cart.coupons.
    rewrite !lookupCoupon_cons.
    destruct (String.eqb "WELCOME10" k) eqn:E1;
      [apply String.eqb_eq in E1; split; [intros _; simpl; auto 6|intros _; eexists; reflexivity]|].
    destruct (String.eqb "ATTAR20" k) eqn:E2;
      [apply String.eqb_eq in E2; split; [intros _; simpl; auto 6|intros _; eexists; reflexivity]|].
    destruct (String.eqb "FREESHIP" k) eqn:E3;
      [apply String.eqb_eq in E3; split; [intros _; simpl; auto 6|intros _; eexists; reflexivity]|].
    destruct (String.eqb "ROYAL50" k) eqn:E4;
      [apply String.eqb_eq in E4; split; [intros _; simpl; auto 6|intros _; eexists; reflexivity]|].
    apply String.eqb_neq in E1, E2, E3, E4.
    split; [by intros [r [=]]|]. intros [?|[?|[?|[?|[]]]]]; done.
Qed.

(** Lower-case and mixed-case spellings are accepted. *)
Example checkCoupon_lowercase :
  Cart.checkCoupon (Some "welcome10") = Cart.checkCoupon (Some "Welcome10")
  ∧ ∃ d, Cart.checkCoupon (Some "welcome10") = Ok ("WELCOME10", d)
         ∧ Cart.discount d = 10.
Proof. split; [reflexivity|]. eexists. split; reflexivity. Qed.

Lemma round2_mono x y : (x <= y)%Q → (round2 x <= round2 y)%Q.
Proof.
  intros H. unfold round2, Math_round, Qdiv. change (/ 100)%Q with (1 # 100)%Q.
  assert (Qfloor (x * 100 + (1 # 2)) <= Qfloor (y * 100 + (1 # 2)))%Z as Hf.
  { apply Qfloor_resp_le. lra. }
  rewrite Zle_Qle in Hf. lra.
Qed.

Lemma verifyItems_nonneg ps its s lines :
  pricesNonNegative ps →
  Orders.verifyItems ps its 0%Q [] = Ok (s, lines) →
  Forall (fun it => 1 <= Order.quantity it) lines →
  (0 <= s)%Q.
Proof.
  intros Hps Hv Hq. apply verifyItems_ok in Hv as (new & -> & Hs & Hsnap).
  rewrite Hs. assert (0 <= sumLines new)%Q; [|lra].
  apply sumLines_nonneg.
  pose proof (snapshot_price_nonneg _ _ _ Hps Hsnap) as Hpr.
  rewrite List.Forall_forall in Hpr, Hq |- *.
  intros it Hit. split; [by apply Hpr|]. specialize (Hq it Hit). simpl in *. lia.
Qed.

Lemma validate_quantities o :
  Order.validate o = true → Forall (fun it => 1 <= Order.quantity it) (Order.items o).
Proof.
  unfold Order.validate. intros Hval.
  apply andb_true_iff in Hval as [Hval _].
  apply andb_true_iff in Hval as [Hq _].
  rewrite forallb_forall in Hq. apply List.Forall_forall.
  intros it Hit. by apply Z.leb_le, Hq.
Qed.

(** X16. A coupon code added to a request that is accepted
    without one does not make it fail: the order has the same line
    items, subtotal, shipping and tax and takes the same stock, its
    discount lies between 0 and the subtotal, and its total is not above
    the total without the code. *)
Theorem coupon_never_raises_total db user req now c id order db' :
  pricesNonNegative (products db) →
  Orders.placeOrder db user (withCoupon req None) now = (Ok (id, order), db') →
  ∃ order1 db1,
    Orders.placeOrder db user (withCoupon req (Some c)) now = (Ok (id, order1), db1)
    ∧ Order.items order1 = Order.items order
    ∧ Order.subtotal (Order.pricing order1) = Order.subtotal (Order.pricing order)
    ∧ Order.shipping (Order.pricing order1) = Order.shipping (Order.pricing order)
    ∧ Order.tax (Order.pricing order1) = Order.tax (Order.pricing order)
    ∧ (0 <= Order.discount (Order.pricing order1))%Q
    ∧ (Order.discount (Order.pricing order1)
       <= Order.subtotal (Order.pricing order1))%Q
    ∧ (Order.total (Order.pricing order1) <= Order.total (Order.pricing order))%Q
    ∧ products db1 = products db'.
Proof.
  intros Hps (s & lines & Hvr & Hv & Hval & -> & -> & ->)%placeOrder_unfold_success.
  simpl in Hv, Hval.
  assert (0 <= s)%Q as Hs.
  { eapply verifyItems_nonneg; [done|done|].
    by apply validate_quantities in Hval. }
  eexists _, _. split.
  { by apply (placeOrder_success_eq db user (withCoupon req (Some c)) now s lines). }
  simpl.
  assert (0 <= round2 (s * (10 # 100)))%Q as Hd0.
  { apply round2_nonneg. lra. }
  pose proof (round2_tenth_le s Hs) as Hd.
  unfold Orders.discountFor. cbn [truthy]. destruct (negb (String.eqb c "")).
  - split_and!; try done. apply round2_mono. lra.
  - split_and!; try done; lra.
Qed.

Lemma sample_prices : pricesNonNegative (products Sample.db0).
Proof.
  intros id p s Hp Hs. simpl in Hp. unfold Sample.catalogue in Hp.
  rewrite lookup_insert in Hp. destruct (decide (1%N = id)).
  - injection Hp as <-. simpl in Hs.
    destruct Hs as [<-|[<-|[<-|[]]]]; simpl; unfold Qle; simpl; lia.
  - rewrite lookup_insert in Hp. destruct (decide (2%N = id)).
    + injection Hp as <-. simpl in Hs.
      destruct Hs as [<-|[<-|[<-|[]]]]; simpl; unfold Qle; simpl; lia.
    + rewrite lookup_empty in Hp. discriminate.
Defined.

Lemma coupon_never_raises_total_witness :
  ∃ order1 db1,
    Orders.placeOrder Sample.db0 Sample.customer
      (withCoupon (Sample.request Sample.smallCart None) (Some "WELCOME10")) 1000
    = (Ok (0%N, order1), db1)
    ∧ Order.items order1 = Order.items Sample.order1
    ∧ Order.subtotal (Order.pricing order1)
      = Order.subtotal (Order.pricing Sample.order1)
    ∧ Order.shipping (Order.pricing order1)
      = Order.shipping (Order.pricing Sample.order1)
    ∧ Order.tax (Order.pricing order1) = Order.tax (Order.pricing Sample.order1)
    ∧ (0 <= Order.discount (Order.pricing order1))%Q
    ∧ (Order.discount (Order.pricing order1)
       <= Order.subtotal (Order.pricing order1))%Q
    ∧ (Order.total (Order.pricing order1)
       <= Order.total (Order.pricing Sample.order1))%Q
    ∧ products db1 = products Sample.db1.
Proof.
  apply (coupon_never_raises_total Sample.db0 Sample.customer
           (Sample.request Sample.smallCart None) 1000 "WELCOME10" 0%N
           Sample.order1 Sample.db1).
  - exact sample_prices.
  - vm_compute. reflexivity.
Defined.

(** ** The cart and the order agree *)

Lemma verify_then_validate ps its subtotal lines vs s lines' :
  Orders.verifyItems ps its subtotal lines = Ok (s, lines') →
  ∃ new news,
    lines' = (lines ++ new)%list
    ∧ Cart.validateItems ps (toCart <$> its) subtotal vs
      = Ok (s, (vs ++ news)%list)
    ∧ Forall2 sameLine new news.
Proof.
  revert subtotal lines vs.
  induction its as [|item its IH]; intros subtotal lines vs; simpl.
  - intros [= <- <-]. exists [], []. rewrite !app_nil_r. by split_and!.
  - destruct (ps !! Orders.product item) as [p|]; [|done].
    destruct (negb (Product.isActive p)); [done|].
    destruct (Product.findSize p (Orders.size item)) as [sz|]; [|done].
    destruct (Product.stock sz <? Orders.quantity item) eqn:Hlt; [done|].
    apply Z.ltb_ge in Hlt.
    intros H.
    match goal with
    | |- context [Cart.validateItems _ _ _ ?v] =>
        destruct (IH _ _ v H) as (new & news & Heq & Hval & Hsame)
    end.
    eexists (_ :: new), (_ :: news).
    split; [rewrite Heq, <- app_assoc; reflexivity|].
    split; [rewrite <- app_assoc in Hval; exact Hval|].
    constructor; [|done].
    unfold sameLine, lineTotal. simpl. split_and!; try done. lia.
Qed.

(** X17. Whatever is accepted as an order validates as a cart:
    for the same items the cart validation succeeds with no quantity
    capped, the same lines and the same subtotal, shipping and tax; and
    when the order carries no coupon code its total is the cart total
    rounded to two decimals. *)
Theorem order_agrees_with_cart db user req now id order db' :
  Orders.placeOrder db user req now = (Ok (id, order), db') →
  ∃ vs pricing,
    Cart.validate db (toCart <$> Orders.items req) = Ok (vs, pricing)
    ∧ Forall2 sameLine (Order.items order) vs
    ∧ Cart.subtotal pricing = Order.subtotal (Order.pricing order)
    ∧ Cart.shipping pricing = Order.shipping (Order.pricing order)
    ∧ Cart.tax pricing = Order.tax (Order.pricing order)
    ∧ (truthy (Orders.coupon_code req) = false →
       (Order.total (Order.pricing order) == round2 (Cart.total pricing))%Q).
Proof.
  intros (s & lines & _ & Hv & _ & -> & -> & ->)%placeOrder_unfold_success.
  destruct (verify_then_validate _ _ _ _ [] _ _ Hv) as (new & news & -> & Hc & Hsame).
  unfold Cart.validate. rewrite Hc. simpl.
  eexists _, _. split; [reflexivity|]. simpl. split_and!; try done.
  intros Hno. unfold Orders.discountFor. rewrite Hno.
  unfold round2, Math_round.
  assert (s + Orders.shippingFor s + Orders.taxFor s - 0
          == s + (if Qle_bool 100 s then 0 else 999 # 100)
             + round2 (s * (5 # 100)))%Q as ->; [|reflexivity].
  unfold Orders.shippingFor, Orders.taxFor. lra.
Qed.

Lemma order_agrees_with_cart_witness :
  ∃ vs pricing,
    Cart.validate Sample.db0
      (toCart <$> Orders.items (Sample.request Sample.smallCart None))
    = Ok (vs, pricing)
    ∧ Forall2 sameLine (Order.items Sample.order1) vs
    ∧ Cart.subtotal pricing = Order.subtotal (Order.pricing Sample.order1)
    ∧ Cart.shipping pricing = Order.shipping (Order.pricing Sample.order1)
    ∧ Cart.tax pricing = Order.tax (Order.pricing Sample.order1)
    ∧ (truthy (Orders.coupon_code (Sample.request Sample.smallCart None)) = false →
       (Order.total (Order.pricing Sample.order1)
        == round2 (Cart.total pricing))%Q).
Proof.
  apply (order_agrees_with_cart Sample.db0 Sample.customer
           (Sample.request Sample.smallCart None) 1000 0%N Sample.order1
           Sample.db1).
  vm_compute. reflexivity.
Defined.

(** ** Paying an order *)





(** The sample order of 126.00 is charged as 12600 cents. *)
Example intentParams_sample :
  PaymentIntents.amount (PaymentIntents.intentParams 0 Sample.order1) = 12600.
Proof. reflexivity. Qed.



(** ** The slug of a product name *)

Lemma replaceRuns_ok b s : okChars b (Slug.replaceRuns b s) = true.
Proof.
  revert b. induction s as [|c s IH]; intros b; simpl; [done|].
  destruct (Slug.isSlugChar c) eqn:E; simpl.
  - by rewrite E.
  - destruct b; [done|]. simpl. by rewrite IH.
Qed.

Lemma okChars_weaken b s : okChars b s = true → okChars false s = true.
Proof.
  destruct s as [|c s]; simpl; [done|].
  destruct (Slug.isSlugChar c); [done|].
  destruct (Ascii.eqb c "-"); [|done]. by destruct b.
Qed.

Lemma dropLeadingDash_ok s :
  okChars false s = true → okChars true (Slug.dropLeadingDash s) = true.
Proof.
  destruct s as [|c s]; [done|].
  destruct (Ascii.eqb c "-") eqn:E.
  - apply Ascii.eqb_eq in E. subst c. simpl. done.
  - unfold Slug.dropLeadingDash.
    assert (c ≠ "-"%char) as Hne by (by apply Ascii.eqb_neq).
    destruct c as [[] [] [] [] [] [] [] []]; try done; simpl;
      rewrite ?andb_true_r; try done.
Qed.

Lemma dropTrailingDash_ok b s :
  okChars b s = true →
  okChars b (Slug.dropTrailingDash s) = true
  ∧ endsWithDash (Slug.dropTrailingDash s) = false.
Proof.
  revert b. induction s as [|c s IH]; intros b; [done|].
  destruct s as [|c' s'].
  - simpl. destruct (Ascii.eqb c "-") eqn:E; [done|].
    simpl. rewrite E. by destruct (Slug.isSlugChar c).
  - change (Slug.dropTrailingDash (String c (String c' s')))
      with (String c (Slug.dropTrailingDash (String c' s'))).
    change (okChars b (String c (String c' s')))
      with (if Slug.isSlugChar c then okChars false (String c' s')
            else if Ascii.eqb c "-" then negb b && okChars true (String c' s')
                 else false).
    intros H.
    assert (∃ b', okChars b' (String c' s') = true
                  ∧ (b' = true → Ascii.eqb c "-" = true)
                  ∧ okChars b (String c (Slug.dropTrailingDash (String c' s')))
                    = okChars b' (Slug.dropTrailingDash (String c' s')))
      as (b' & Hb' & Hdash & Heq).
    { cbn [okChars]. destruct (Slug.isSlugChar c).
      - by exists false.
      - destruct (Ascii.eqb c "-"); [|done].
        apply andb_true_iff in H as [Hb H]. exists true. by rewrite Hb. }
    destruct (IH b' Hb') as [Hok Hend]. split; [by rewrite Heq|].
    destruct (Slug.dropTrailingDash (String c' s')) as [|d r] eqn:Ed; [|done].
    (* the rest was a single dash: [c] cannot be a dash as well *)
    cbn [endsWithDash]. destruct (Ascii.eqb c "-") eqn:Ec; [|done]. exfalso.
    assert (String c' s' = "-") as Hs.
    { clear -Ed. simpl in Ed. destruct s' as [|c'' s''].
      - destruct (Ascii.eqb c' "-") eqn:E'; [|done].
        by apply Ascii.eqb_eq in E' as ->.
      - done. }
    rewrite Hs in H. apply Ascii.eqb_eq in Ec. subst c. simpl in H.
    by rewrite andb_false_r in H.
Qed.

Lemma slugify_ok name :
  okChars true (Slug.slugify name) = true
  ∧ endsWithDash (Slug.slugify name) = false.
Proof.
  unfold Slug.slugify, Slug.stripDashes.
  apply dropTrailingDash_ok, dropLeadingDash_ok, replaceRuns_ok.
Qed.

Lemma okChars_chars b s :
  okChars b s = true →
  Forall (fun c => Slug.isSlugChar c = true ∨ c = "-"%char) (String.list_ascii_of_string s).
Proof.
  revert b. induction s as [|c s IH]; intros b; simpl; [constructor|].
  destruct (Slug.isSlugChar c) eqn:E.
  - intros H. constructor; [by left|by eapply IH].
  - destruct (Ascii.eqb c "-") eqn:E'; [|done].
    intros [_ H]%andb_true_iff. apply Ascii.eqb_eq in E'.
    constructor; [by right|by eapply IH].
Qed.

Lemma okChars_no_double b pre post :
  okChars b (pre +:+ "--" +:+ post) = false.
Proof.
  revert b. induction pre as [|c pre IH]; intros b; simpl.
  - by rewrite andb_false_r.
  - destruct (Slug.isSlugChar c); [apply IH|].
    destruct (Ascii.eqb c "-"); [|done]. by rewrite IH, andb_false_r.
Qed.

Lemma endsWithDash_snoc pre : endsWithDash (pre +:+ "-") = true.
Proof.
  induction pre as [|c pre IH]; [done|].
  simpl. destruct (pre +:+ "-") eqn:E; [|done].
  by destruct pre.
Qed.

(** X20. The slug of any name consists of characters in
    [a-z0-9] and dashes only, does not begin or end with a dash and has
    no two dashes in a row. *)
Theorem slugify_shape name :
  let s := Slug.slugify name in
  Forall (fun c => Slug.isSlugChar c = true ∨ c = "-"%char) (String.list_ascii_of_string s)
  ∧ (∀ rest, s ≠ String "-" rest)
  ∧ (∀ pre, s ≠ pre +:+ "-")
  ∧ (∀ pre post, s ≠ pre +:+ "--" +:+ post).
Proof.
  intros s. destruct (slugify_ok name) as [Hok Hend]. fold s in Hok, Hend.
  split_and!.
  - by eapply okChars_chars.
  - intros rest Hs. by rewrite Hs in Hok.
  - intros pre Hs. by rewrite Hs, endsWithDash_snoc in Hend.
  - intros pre post Hs. by rewrite Hs, okChars_no_double in Hok.
Qed.

Lemma lowerAscii_slugChar c :
  Slug.isSlugChar c = true ∨ c = "-"%char → Slug.lowerAscii c = c.
Proof.
  destruct c as [[] [] [] [] [] [] [] []]; intros [H|H]; try done.
Qed.

Lemma toLowerCase_ok b s : okChars b s = true → Slug.toLowerCase s = s.
Proof.
  intros H%okChars_chars. induction s as [|c s IH]; [done|].
  simpl in *. inversion H as [|? ? Hc Hs]; subst.
  by rewrite lowerAscii_slugChar, IH.
Qed.

Lemma replaceRuns_fixed b s : okChars b s = true → Slug.replaceRuns b s = s.
Proof.
  revert b. induction s as [|c s IH]; intros b; simpl; [done|].
  destruct (Slug.isSlugChar c); [intros H; by rewrite IH|].
  destruct (Ascii.eqb c "-") eqn:E; [|done].
  intros [Hb H]%andb_true_iff. apply Ascii.eqb_eq in E. subst c.
  destruct b; [done|]. by rewrite IH.
Qed.

Lemma dropLeadingDash_fixed s : okChars true s = true → Slug.dropLeadingDash s = s.
Proof.
  destruct s as [|c s]; [done|].
  destruct c as [[] [] [] [] [] [] [] []]; try done.
Qed.

Lemma dropTrailingDash_fixed s : endsWithDash s = false → Slug.dropTrailingDash s = s.
Proof.
  induction s as [|c s IH]; [done|].
  destruct s as [|c' s']; simpl; [by intros ->|].
  intros H. f_equal. by apply IH.
Qed.

(** X21. A slug is its own slug: computing the slug of a
    slug changes nothing. *)
Theorem slugify_idempotent name :
  Slug.slugify (Slug.slugify name) = Slug.slugify name.
Proof.
  destruct (slugify_ok name) as [Hok Hend].
  generalize dependent (Slug.slugify name). intros s Hok Hend.
  unfold Slug.slugify, Slug.stripDashes.
  rewrite (toLowerCase_ok _ _ Hok).
  rewrite (replaceRuns_fixed false) by by eapply okChars_weaken.
  by rewrite dropLeadingDash_fixed, dropTrailingDash_fixed.
Qed.

(** Some names of the catalogue and their slugs. *)
Example slugify_samples :
  Slug.slugify "Royal Hind Oud" = "royal-hind-oud"
  ∧ Slug.slugify "  Rose & Amber!! " = "rose-amber"
  ∧ Slug.slugify "Oud #1 (12ml)" = "oud-1-12ml"
  ∧ Slug.slugify "---" = "".
Proof. vm_compute. by split_and!. Qed.

(** ** Wishlist and address book *)





(** The customer adds the lotus and removes it again. *)
Example wishlist_sample :
  ∃ users',
    Users.addToWishlist MoreSamples.profiles Sample.customer 2 = (Sent 2%nat, users')
    ∧ Users.wishlist <$> users' !! 7%N = Some [1%N; 2%N]
    ∧ Users.removeFromWishlist users' Sample.customer 2
      = (Sent 1%nat, MoreSamples.profiles).
Proof.
  eexists. split_and!; [reflexivity|reflexivity|].
  unfold Users.removeFromWishlist. change (uid Sample.customer) with 7%N.
  rewrite lookup_insert_eq, insert_insert_eq. simpl.
  reflexivity.
Qed.

Lemma countDefault_app l1 l2 :
  countDefault (l1 ++ l2) = (countDefault l1 + countDefault l2)%nat.
Proof. unfold countDefault. by rewrite List.filter_app, length_app. Qed.

Lemma countDefault_cleared l : countDefault (Users.clearDefault <$> l) = 0%nat.
Proof. by induction l. Qed.

Lemma countDefault_filter f l : (countDefault (List.filter f l) ≤ countDefault l)%nat.
Proof.
  unfold countDefault. induction l as [|a l IH]; [done|]. simpl.
  destruct (f a); simpl; destruct (Users.isDefault a); simpl; lia.
Qed.

Lemma countDefault_assignFirst id req l :
  (countDefault (Users.assignFirst id req l)
   ≤ countDefault l + (if default false (Users.req_isDefault req) then 1 else 0))%nat.
Proof.
  unfold countDefault. induction l as [|a l IH]; simpl; [lia|].
  destruct (N.eqb (Users._id a) id); simpl.
  - destruct (Users.req_isDefault req) as [[]|], (Users.isDefault a); simpl; lia.
  - destruct (Users.isDefault a); simpl; lia.
Qed.

Lemma length_assignFirst id req l : length (Users.assignFirst id req l) = length l.
Proof.
  induction l as [|a l IH]; [done|]. simpl.
  destruct (N.eqb (Users._id a) id); simpl; by rewrite ?IH.
Qed.

Lemma countDefault_reset req l :
  (countDefault (Users.resetDefaults req l)
   + (if default false (Users.req_isDefault req) then 1 else 0) ≤ Nat.max 1 (countDefault l))%nat.
Proof.
  unfold Users.resetDefaults.
  destruct (default false (Users.req_isDefault req)).
  - rewrite countDefault_cleared. lia.
  - lia.
Qed.

(** X23. A user with at most one default address keeps at most
    one through adding, updating and deleting addresses; adding appends
    one address, and an address added as the default is then the only
    default; updating an unknown address is refused with 404 and changes
    nothing. *)
Theorem at_most_one_default_address users user u :
  users !! uid user = Some u →
  (countDefault (Users.addresses u) ≤ 1)%nat →
  (∀ req, ∃ l new,
      Users.addAddress users user req
      = (Sent l, <[uid user := Users.set_addresses u l]> users)
      ∧ l = (Users.resetDefaults req (Users.addresses u) ++ [new])%list
      ∧ (Users._id new ∉ (Users._id <$> Users.addresses u))
      ∧ (countDefault l ≤ 1)%nat
      ∧ (Users.req_isDefault req = Some true → List.filter Users.isDefault l = [new]))
  ∧ (∀ id req,
      (Users.updateAddress users user id req
       = (Refused (Refuse 404 "Address not found"), users)
       ∧ (id ∉ (Users._id <$> Users.addresses u)))
      ∨ (∃ l,
          Users.updateAddress users user id req
          = (Sent l, <[uid user := Users.set_addresses u l]> users)
          ∧ length l = length (Users.addresses u)
          ∧ (countDefault l ≤ 1)%nat))
  ∧ (∀ id, ∃ l,
      Users.deleteAddress users user id
      = (Sent l, <[uid user := Users.set_addresses u l]> users)
      ∧ (id ∉ (Users._id <$> l))
      ∧ (countDefault l ≤ 1)%nat).
Proof.
  intros Hu Hone. split_and!.
  - intros req. unfold Users.addAddress. rewrite Hu. cbn zeta.
    set (l := Users.resetDefaults req (Users.addresses u)).
    exists (l ++ [Users.newAddress (fresh (Users._id <$> l)) req])%list,
           (Users.newAddress (fresh (Users._id <$> l)) req).
    subst l. split_and!; try reflexivity.
    + cbn [Users._id Users.newAddress].
      assert (Users._id <$> Users.resetDefaults req (Users.addresses u)
              = Users._id <$> Users.addresses u) as ->.
      { unfold Users.resetDefaults.
        destruct (default false (Users.req_isDefault req)); [|done].
        rewrite <- list_fmap_compose. by apply list_fmap_ext. }
      apply infinite_is_fresh.
    + rewrite countDefault_app.
      pose proof (countDefault_reset req (Users.addresses u)) as H.
      unfold countDefault at 2. simpl.
      destruct (default false (Users.req_isDefault req)); simpl; lia.
    + intros Hd. unfold Users.resetDefaults. rewrite Hd. simpl.
      rewrite List.filter_app. simpl. rewrite Hd. simpl.
      pose proof (countDefault_cleared (Users.addresses u)) as H0.
      unfold countDefault in H0. apply nil_length_inv in H0. by rewrite H0.
  - intros id req. unfold Users.updateAddress. rewrite Hu.
    destruct (List.find _ (Users.addresses u)) as [a|] eqn:Ef.
    + right. eexists. split_and!.
      * destruct u; reflexivity.
      * rewrite length_assignFirst. unfold Users.resetDefaults.
        destruct (default false _); by rewrite ?length_fmap.
      * pose proof (countDefault_assignFirst id req
                      (Users.resetDefaults req (Users.addresses u))) as H1.
        pose proof (countDefault_reset req (Users.addresses u)) as H2. lia.
    + left. split; [done|].
      intros (a & -> & Hin)%list_elem_of_fmap.
      apply list_elem_of_In in Hin.
      apply (find_none _ _ Ef) in Hin. by rewrite N.eqb_refl in Hin.
  - intros id. unfold Users.deleteAddress. rewrite Hu.
    eexists. split_and!.
    + destruct u; reflexivity.
    + intros (a & -> & Hin)%list_elem_of_fmap.
      apply list_elem_of_In, filter_In in Hin as [_ Hin].
      by rewrite N.eqb_refl in Hin.
    + etrans; [apply countDefault_filter|done].
Qed.

Lemma at_most_one_default_address_witness :
  let users := MoreSamples.profiles in
  let user := Sample.customer in
  let u := {| Users.addresses := [MoreSamples.home]; Users.wishlist := [1%N] |} in
  (∀ req, ∃ l new,
      Users.addAddress users user req
      = (Sent l, <[uid user := Users.set_addresses u l]> users)
      ∧ l = (Users.resetDefaults req (Users.addresses u) ++ [new])%list
      ∧ (Users._id new ∉ (Users._id <$> Users.addresses u))
      ∧ (countDefault l ≤ 1)%nat
      ∧ (Users.req_isDefault req = Some true → List.filter Users.isDefault l = [new]))
  ∧ (∀ id req,
      (Users.updateAddress users user id req
       = (Refused (Refuse 404 "Address not found"), users)
       ∧ (id ∉ (Users._id <$> Users.addresses u)))
      ∨ (∃ l,
          Users.updateAddress users user id req
          = (Sent l, <[uid user := Users.set_addresses u l]> users)
          ∧ length l = length (Users.addresses u)
          ∧ (countDefault l ≤ 1)%nat))
  ∧ (∀ id, ∃ l,
      Users.deleteAddress users user id
      = (Sent l, <[uid user := Users.set_addresses u l]> users)
      ∧ (id ∉ (Users._id <$> l))
      ∧ (countDefault l ≤ 1)%nat).
Proof.
  apply (at_most_one_default_address MoreSamples.profiles Sample.customer
           {| Users.addresses := [MoreSamples.home]; Users.wishlist := [1%N] |}).
  - reflexivity.
  - vm_compute. lia.
Defined.

(** The customer adds an office address as the default: the home address
    stops being one. *)
Example addAddress_office :
  ∃ office users',
    Users.addAddress MoreSamples.profiles Sample.customer MoreSamples.officeReq
    = (Sent [Users.clearDefault MoreSamples.home; office], users')
    ∧ Users.isDefault office = true
    ∧ Users.label office = "Office"
    ∧ Users.state office = ""
    ∧ Users._id office ≠ Users._id MoreSamples.home.
Proof.
  exists (Users.newAddress (fresh [0%N]) MoreSamples.officeReq). eexists.
  split_and!; try reflexivity.
  simpl. intros H. apply (infinite_is_fresh [0%N]). rewrite H.
  by apply list_elem_of_singleton.
Qed.
